(** * keep_github_workflows_active: the sweep over repositories, workflows and runs

    A shallow embedding of [src/keep_github_workflows_active/keep_active.py]
    (the module the package ships) and, in [Module Legacy], of the functions
    of the older [keep_github_workflows_active.py] that differ from it.

    Python values are modelled as follows.
    - [str] is [string], the bytes of its UTF-8 encoding; [int] is [Z];
      [dict[str, str]] is [gmap string string].
    - A decoded JSON document is a [JSON] tree.  The listings return the
      values they find in the documents as they are, whatever their type: a
      list of repository names or of run identifiers is a [list JSON].
    - The network is a server the program talks to through [requests]: a
      state type and a handler that answers one request at a time.  Every
      request sent, every line printed and every line logged is appended to
      the [trace] of the [World], in program order.
    - A Python function that may raise is a computation in the monad [M],
      whose outcome is a value, an exception, [OutOfFuel] when a [while]
      loop was cut by the fuel bound, or [Unmodelled] where the model does
      not follow Python ([sorted] on run identifiers that are booleans or
      arrays). *)

From Stdlib Require Import Ascii.
From stdpp Require Import base option list strings gmap sorting pretty.

Open Scope Z_scope.

(** ** Python strings *)

Module Py.

(** [s.startswith(prefix)] *)
Definition startswith (s prefix : string) : bool := String.prefix prefix s.

(** White space, as [str.isspace] and [str.strip()] know it, on the bytes of
    UTF-8.  In one byte: TAB, LF, VT, FF, CR, FS, GS, RS, US and the space. *)
Definition isspace (c : ascii) : bool :=
  let n := nat_of_ascii c in
  ((9 <=? n)%nat && (n <=? 13)%nat) || ((28 <=? n)%nat && (n <=? 32)%nat).

(** In two bytes: U+0085 and U+00A0. *)
Definition isspace2 (a b : ascii) : bool :=
  bool_decide (nat_of_ascii a = 194%nat)
  && bool_decide (nat_of_ascii b = 133%nat ∨ nat_of_ascii b = 160%nat).

(** In three bytes: U+1680, U+2000 to U+200A, U+2028, U+2029, U+202F, U+205F
    and U+3000. *)
Definition isspace3 (a b c : ascii) : bool :=
  let '(a, b, c) := (nat_of_ascii a, nat_of_ascii b, nat_of_ascii c) in
  bool_decide (a = 225 ∧ b = 154 ∧ c = 128)%nat
  || bool_decide (a = 226 ∧ b = 128
                  ∧ (128 ≤ c ≤ 138 ∨ c = 168 ∨ c = 169 ∨ c = 175))%nat
  || bool_decide (a = 226 ∧ b = 129 ∧ c = 159)%nat
  || bool_decide (a = 227 ∧ b = 128 ∧ c = 128)%nat.

(** The string without the white space it starts with; [space2] and [space3]
    tell the white space of two and of three bytes. *)
Fixpoint lstrip_spaces (space2 : ascii → ascii → bool)
  (space3 : ascii → ascii → ascii → bool) (s : string) : string :=
  match s with
  | EmptyString => EmptyString
  | String a rest1 =>
      if isspace a then lstrip_spaces space2 space3 rest1
      else match rest1 with
           | EmptyString => s
           | String b rest2 =>
               if space2 a b then lstrip_spaces space2 space3 rest2
               else match rest2 with
                    | EmptyString => s
                    | String c rest3 =>
                        if space3 a b c then lstrip_spaces space2 space3 rest3 else s
                    end
           end
  end.

(** [s.lstrip()] *)
Definition lstrip : string → string := lstrip_spaces isspace2 isspace3.

(** [s.rstrip()]: the same from the end, where the bytes of a character come
    last byte first. *)
Definition rstrip (s : string) : string :=
  String.rev (lstrip_spaces (λ b a, isspace2 a b) (λ c b a, isspace3 a b c) (String.rev s)).

Fixpoint lstrip_with (drop_it : ascii → bool) (s : string) : string :=
  match s with
  | EmptyString => EmptyString
  | String c rest => if drop_it c then lstrip_with drop_it rest else s
  end.

Definition rstrip_with (drop_it : ascii → bool) (s : string) : string :=
  String.rev (lstrip_with drop_it (String.rev s)).

Definition strip_with (drop_it : ascii → bool) (s : string) : string :=
  rstrip_with drop_it (lstrip_with drop_it s).

(** [s.strip()] *)
Definition strip (s : string) : string := rstrip (lstrip s).

(** [s.strip(c)] for a one-character argument, [c] in ASCII *)
Definition strip_char (c : ascii) : string → string :=
  strip_with (λ x, bool_decide (x = c)).

(** [s.partition(sep)] for a one-character separator: the text before the
    first [sep], the separator found (empty when there is none), the text
    after it. *)
Fixpoint partition (sep : ascii) (s : string) : string * string * string :=
  match s with
  | EmptyString => (EmptyString, EmptyString, EmptyString)
  | String c rest =>
      if bool_decide (c = sep) then (EmptyString, String sep EmptyString, rest)
      else let '(head, found, tail) := partition sep rest in
           (String c head, found, tail)
  end.

(** Truth value of a string: [if s:] *)
Definition truthy (s : string) : bool := negb (bool_decide (s = EmptyString)).

(** Truth value of [None]-or-string: [if v:] and [while url:] *)
Definition truthy_opt (v : option string) : bool :=
  match v with
  | Some s => truthy s
  | None => false
  end.

(** [a or b] on strings *)
Definition or_else (a b : string) : string := if truthy a then a else b.

(** [l[k:]]: a negative [k] counts from the end and is clamped at the start. *)
Definition slice_from {A} (k : Z) (l : list A) : list A :=
  if decide (k < 0)
  then drop (Z.to_nat (Z.max 0 (Z.of_nat (length l) + k))) l
  else drop (Z.to_nat k) l.

(** [sorted(l, reverse=True)] on integers. *)
Definition sorted_reverse (l : list Z) : list Z := merge_sort Z.ge l.

(** [sorted(l)] on integers: ascending; used in statements only. *)
Definition sorted (l : list Z) : list Z := merge_sort Z.le l.

(** [sorted(l, reverse=True)] on strings, which Python compares character by
    character: the order of their UTF-8 bytes. *)
Definition str_ge (x y : string) : Prop := String.leb y x = true.

Global Instance str_ge_dec : RelDecision str_ge.
Proof. intros x y. unfold str_ge. apply _. Defined.

Definition sorted_reverse_str (l : list string) : list string := merge_sort str_ge l.

(** The components of a path, as [pathlib.PurePosixPath] keeps them: empty
    components and [.] are dropped. *)
Fixpoint split_on (sep : ascii) (cur : string) (s : string) : list string :=
  match s with
  | EmptyString => [String.rev cur]
  | String c rest =>
      if bool_decide (c = sep) then String.rev cur :: split_on sep EmptyString rest
      else split_on sep (String c cur) rest
  end.

Definition path_parts (p : string) : list string :=
  filter (λ part, part ≠ EmptyString ∧ part ≠ ".") (split_on "/" EmptyString p).

(** [pathlib.Path(p).name]: the last component, empty when there is none. *)
Definition path_name (p : string) : string := default EmptyString (last (path_parts p)).

End Py.

(** ** JSON documents *)

#[warnings="-register-all"] Inductive JSON :=
| JNull
| JBool (b : bool)
| JInt (n : Z)
| JStr (s : string)
| JArr (items : list JSON)
| JObj (fields : list (string * JSON)).

(** A decoded object is a [dict]; its fields are kept as the association list
    of the keys in document order, each key once. *)
Fixpoint assoc {A} (key : string) (fields : list (string * A)) : option A :=
  match fields with
  | [] => None
  | (k, v) :: rest => if decide (k = key) then Some v else assoc key rest
  end.

(** [repr(v)]; exact for strings that need no escape. *)
Fixpoint py_repr (v : JSON) : string :=
  match v with
  | JNull => "None"
  | JBool true => "True"
  | JBool false => "False"
  | JInt n => pretty n
  | JStr s => "'" +:+ s +:+ "'"
  | JArr items =>
      "[" +:+ (fix go (l : list JSON) : string :=
                 match l with
                 | [] => EmptyString
                 | [x] => py_repr x
                 | x :: rest => py_repr x +:+ ", " +:+ go rest
                 end) items +:+ "]"
  | JObj fields =>
      "{" +:+ (fix go (l : list (string * JSON)) : string :=
                 match l with
                 | [] => EmptyString
                 | [(k, x)] => "'" +:+ k +:+ "': " +:+ py_repr x
                 | (k, x) :: rest => "'" +:+ k +:+ "': " +:+ py_repr x +:+ ", " +:+ go rest
                 end) fields +:+ "}"
  end.

(** [str(v)], as an f-string formats a value: a string is itself, anything
    else is its [repr]. *)
Definition py_str (v : JSON) : string :=
  match v with
  | JStr s => s
  | _ => py_repr v
  end.

(** ** HTTP, as [requests] shows it *)

Inductive Method := GET | PUT | DELETE.

Global Instance Method_eq_dec : EqDecision Method.
Proof. solve_decision. Defined.

Record Request := {
  method : Method;
  url : string;
  headers : list (string * string);
  timeout : option Z;
}.

(** A response: [json] is what [response.json()] decodes, [None] when the
    body is no JSON document; [links] is [response.links], the parsed Link
    header, keyed by relation. *)
Record Response := {
  status_code : Z;
  reason : string;
  text : string;
  json : option JSON;
  links : gmap string (gmap string string);
  response_url : string;
}.

Inductive Exception :=
| HTTPError (response : option Response) (message : string)
| ConnectionError (message : string)
| Timeout (message : string)
| JSONDecodeError
| KeyError (key : string)
| TypeError
| AttributeError
| FileNotFoundError
| IsADirectoryError
| PermissionError
| UnicodeDecodeError
| RuntimeError (message : string).

(** [isinstance(exc, requests.exceptions.RequestException)] *)
Definition is_RequestException (exc : Exception) : bool :=
  match exc with
  | HTTPError _ _ | ConnectionError _ | Timeout _ | JSONDecodeError => true
  | _ => false
  end.

(** [isinstance(exc, ValueError)] *)
Definition is_ValueError (exc : Exception) : bool :=
  match exc with
  | JSONDecodeError | UnicodeDecodeError => true
  | _ => false
  end.

(** [str(exc)]: the text an exception was built with.  The program formats
    only exceptions of [requests] and its own [RuntimeError]. *)
Definition exception_str (exc : Exception) : string :=
  match exc with
  | HTTPError _ message | ConnectionError message | Timeout message
  | RuntimeError message => message
  | KeyError key => "'" +:+ key +:+ "'"
  | JSONDecodeError => "Expecting value: line 1 column 1 (char 0)"
  | TypeError | AttributeError | FileNotFoundError | IsADirectoryError | PermissionError
  | UnicodeDecodeError => EmptyString
  end.

(** What the transport does with a request: it hands back a response of any
    status, or fails before there is one. *)
Inductive TransportFailure :=
| ConnectionFailed (message : string)
| TimedOut (message : string).

Inductive Reply :=
| Responded (r : Response)
| Failed (f : TransportFailure).

Definition transport_exception (f : TransportFailure) : Exception :=
  match f with
  | ConnectionFailed message => ConnectionError message
  | TimedOut message => Timeout message
  end.

(** ** Outcomes *)

(** What running a piece of the program comes to: it returns, it raises, or
    the model stops short of an answer: a loop was cut by the fuel bound
    ([OutOfFuel]), or the program does something the model does not follow
    ([Unmodelled]). *)
Inductive Outcome (A : Type) :=
| Returns (a : A)
| Raises (exc : Exception)
| OutOfFuel
| Unmodelled.
Arguments Returns {A} a.
Arguments Raises {A} exc.
Arguments OutOfFuel {A}.
Arguments Unmodelled {A}.

Global Instance Outcome_ret : MRet Outcome := @Returns.

Global Instance Outcome_bind : MBind Outcome :=
  λ A B k o, match o with
             | Returns a => k a
             | Raises exc => Raises exc
             | OutOfFuel => OutOfFuel
             | Unmodelled => Unmodelled
             end.

(** [[f x for x in l]] *)
Fixpoint comprehension {A B} (f : A → Outcome B) (l : list A) : Outcome (list B) :=
  match l with
  | [] => Returns []
  | x :: rest => y ← f x; ys ← comprehension f rest; Returns (y :: ys)
  end.

(** *** Reading a response *)

(** [response.json()] *)
Definition response_json (response : Response) : Outcome JSON :=
  match json response with
  | Some data => Returns data
  | None => Raises JSONDecodeError
  end.

(** [v.get(key, dflt)]: only a [dict] has [get]. *)
Definition dict_get (v : JSON) (key : string) (dflt : JSON) : Outcome JSON :=
  match v with
  | JObj fields => Returns (default dflt (assoc key fields))
  | _ => Raises AttributeError
  end.

(** [v[key]] for a string key. *)
Definition subscript (v : JSON) (key : string) : Outcome JSON :=
  match v with
  | JObj fields =>
      match assoc key fields with
      | Some x => Returns x
      | None => Raises (KeyError key)
      end
  | _ => Raises TypeError
  end.

(** [for x in v]: a list gives its items, a dict its keys, a string its
    characters; nothing else can be iterated. *)
Definition iterate (v : JSON) : Outcome (list JSON) :=
  match v with
  | JArr items => Returns items
  | JObj fields => Returns (map (λ kv, JStr (fst kv)) fields)
  | JStr s => Returns (map (λ c, JStr (String c EmptyString)) (String.list_ascii_of_string s))
  | _ => Raises TypeError
  end.

(** [pathlib.Path(v)] takes a string, and raises [TypeError] on a value of
    any other type a JSON document can hold. *)
Definition expect_str (v : JSON) : Outcome string :=
  match v with
  | JStr s => Returns s
  | _ => Raises TypeError
  end.

(** [response.links.get("next", {}).get("url", None)] *)
Definition next_link (response : Response) : option string :=
  default ∅ (links response !! "next") !! "url".

(** [400 <= status < 600], the statuses [raise_for_status] raises on. *)
Definition is_error_status (status : Z) : bool :=
  bool_decide (400 ≤ status < 500) || bool_decide (500 ≤ status < 600).

(** [response.raise_for_status()] *)
Definition raise_for_status (response : Response) : Outcome unit :=
  if bool_decide (400 ≤ status_code response < 500) then
    Raises (HTTPError (Some response)
              (pretty (status_code response) +:+ " Client Error: " +:+ reason response
                 +:+ " for url: " +:+ response_url response))
  else if bool_decide (500 ≤ status_code response < 600) then
    Raises (HTTPError (Some response)
              (pretty (status_code response) +:+ " Server Error: " +:+ reason response
                 +:+ " for url: " +:+ response_url response))
  else Returns ().

(** [[repo["name"] for repo in data]]: the names as the document has them,
    of whatever type. *)
Definition repository_names (data : JSON) : Outcome (list JSON) :=
  repos ← iterate data;
  comprehension (λ repo, subscript repo "name") repos.

(** [[pathlib.Path(workflow["path"]).name for workflow in data.get("workflows", [])]] *)
Definition workflow_filenames (data : JSON) : Outcome (list string) :=
  listed ← dict_get data "workflows" (JArr []);
  entries ← iterate listed;
  comprehension (λ workflow, path ← subscript workflow "path";
                             path ← expect_str path;
                             Returns (Py.path_name path)) entries.

(** [[run["id"] for run in data.get("workflow_runs", [])]]: the identifiers
    as the document has them, of whatever type. *)
Definition run_ids (data : JSON) : Outcome (list JSON) :=
  listed ← dict_get data "workflow_runs" (JArr []);
  runs ← iterate listed;
  comprehension (λ run, subscript run "id") runs.

(** ** Configuration: the environment and the [.env] files *)

(** A resolved path is the list of its components below the root. *)
Definition Path := list string.

Definition parent (p : Path) : Path := removelast p.
Definition path_join (p : Path) (name : string) : Path := p ++ [name].

(** What [path.open(encoding="utf-8")] and the loop over the stream come to:
    the lines of the file, or the exception that opening or decoding raises
    (the path is a directory, may not be read, is no UTF-8, is gone). *)
Inductive Reading :=
| Lines (lines : list string)
| Unreadable (exc : Exception).

(** What the process sees of its surroundings: [os.environ], the working
    directory, the directory of the module file, how [Path.resolve] maps a
    path, which paths exist, and what reading each path comes to.  Whether
    a path exists says nothing about whether it can be read. *)
Record Env := {
  environ : gmap string string;
  cwd : Path;
  script_dir : Path;
  resolve : Path → Path;
  path_exists : Path → bool;
  read_lines : Path → Reading;
}.

Definition REQUEST_TIMEOUT_SECONDS : Z := 30.

Definition _candidate_env_files (env : Env) : list Path :=
  let repo_root := parent (script_dir env) in
  let candidates :=
    [path_join (cwd env) ".env"; path_join (script_dir env) ".env";
     path_join repo_root ".env"] in
  snd (fold_left
         (λ '(seen, existing_files) candidate,
            let resolved := resolve env candidate in
            if bool_decide (resolved ∈ seen) || negb (path_exists env resolved)
            then (seen, existing_files)
            else (resolved :: seen, existing_files ++ [resolved]))
         candidates ([], [])).

(** One line of a [.env] file, applied to the mapping read so far. *)
Definition read_env_line (values : gmap string string) (raw_line : string)
  : gmap string string :=
  let stripped := Py.strip raw_line in
  if negb (Py.truthy stripped) || Py.startswith stripped "#" then values
  else
    let '(key, separator, remainder) := Py.partition "=" stripped in
    if negb (Py.truthy separator) then values
    else <[Py.strip key := Py.strip_char "'" (Py.strip_char "034" (Py.strip remainder))]> values.

Definition _read_env_file (env : Env) (path : Path) : Outcome (gmap string string) :=
  match read_lines env path with
  | Unreadable exc => Raises exc
  | Lines lines => Returns (fold_left read_env_line lines ∅)
  end.

(** The [for env_file in ...] loop of [_lookup_config_value], which returns
    from inside the loop at the first file with a value for [key]; the
    [raise] that follows the loop is the case of no file left. *)
Fixpoint lookup_in_env_files (env : Env) (key : string) (env_files : list Path)
  : Outcome string :=
  match env_files with
  | [] => Raises (RuntimeError ("Missing required configuration: " +:+ key))
  | env_file :: rest =>
      config ← _read_env_file env env_file;
      let file_value := config !! key in
      if Py.truthy_opt file_value
      then Returns (default EmptyString file_value)
      else lookup_in_env_files env key rest
  end.

Definition _lookup_config_value (env : Env) (key : string) : Outcome string :=
  let env_value := environ env !! key in
  if Py.truthy_opt env_value then Returns (default EmptyString env_value)
  else lookup_in_env_files env key (_candidate_env_files env).

Definition get_owner (env : Env) : Outcome string :=
  _lookup_config_value env "SECRET_GITHUB_OWNER".

Definition get_github_token (env : Env) : Outcome string :=
  _lookup_config_value env "SECRET_GITHUB_TOKEN".

(** ** The world the program runs in *)

Inductive Level := INFO | ERROR.

Global Instance Level_eq_dec : EqDecision Level.
Proof. solve_decision. Defined.

Inductive Event :=
| Sent (r : Request)
| Printed (line : string)
| Logged (level : Level) (line : string).

Record World (St : Type) := {
  server : St;
  trace : list Event;
}.
Arguments server {St} w.
Arguments trace {St} w.

(** The world after one more event. *)
Definition record {St} (ev : Event) (w : World St) : World St :=
  {| server := server w; trace := trace w ++ [ev] |}.

(** The requests of a trace, oldest first. *)
Definition requests_of (events : list Event) : list Request :=
  omap (λ ev, match ev with Sent r => Some r | _ => None end) events.

(** The lines of a trace logged at a level, oldest first. *)
Definition logged_at (level : Level) (events : list Event) : list string :=
  omap (λ ev, match ev with
              | Logged l line => if decide (l = level) then Some line else None
              | _ => None
              end) events.

(** A computation: it runs in a world and leaves an outcome and a world. *)
Definition M (St A : Type) : Type := World St → Outcome A * World St.

Global Instance M_ret {St} : MRet (M St) := λ A a w, (Returns a, w).

Global Instance M_bind {St} : MBind (M St) :=
  λ A B k m w, match m w with
               | (Returns a, w') => k a w'
               | (Raises exc, w') => (Raises exc, w')
               | (OutOfFuel, w') => (OutOfFuel, w')
               | (Unmodelled, w') => (Unmodelled, w')
               end.

Definition raise {St A} (exc : Exception) : M St A := λ w, (Raises exc, w).

Definition out_of_fuel {St A} : M St A := λ w, (OutOfFuel, w).

(** A computation that does not touch the world. *)
Definition lift {St A} (o : Outcome A) : M St A := λ w, (o, w).

(** [try: m  except ...: handler]; [handler exc] is [None] when no [except]
    clause matches [exc], which then propagates. *)
Definition try_except {St A} (m : M St A) (handler : Exception → option (M St A))
  : M St A :=
  λ w, match m w with
       | (Raises exc, w') =>
           match handler exc with
           | Some recover => recover w'
           | None => (Raises exc, w')
           end
       | other => other
       end.

Definition emit {St} (ev : Event) : M St unit := λ w, (Returns (), record ev w).

Definition print {St} (line : string) : M St unit := emit (Printed line).
Definition logger_info {St} (line : string) : M St unit := emit (Logged INFO line).
Definition logger_error {St} (line : string) : M St unit := emit (Logged ERROR line).

(** [for x in l: body x] *)
Fixpoint for_each {St A} (l : list A) (body : A → M St unit) : M St unit :=
  match l with
  | [] => mret ()
  | x :: rest => body x;; for_each rest body
  end.

(** [while url: acc, url = body url acc], with a bound on the iterations. *)
Fixpoint while_url {St A} (fuel : nat) (body : string → A → M St (A * option string))
  (url : option string) (acc : A) : M St A :=
  match url with
  | None => mret acc
  | Some u =>
      if Py.truthy u then
        match fuel with
        | O => out_of_fuel
        | S fuel' => next ← body u acc; while_url fuel' body (snd next) (fst next)
        end
      else mret acc
  end.

Definition api_headers (github_token : string) : list (string * string) :=
  [("Authorization", "Bearer " +:+ github_token);
   ("Accept", "application/vnd.github.v3+json")].

(** ** keep_active.py *)

Section Program.

Context {St : Type}.

(** The server: from its state and a request, a reply and its next state. *)
Variable handle : St → Request → Reply * St.

(** One round trip: the request is recorded, the server moves on, and the
    reply is a response or the exception of a failed transport. *)
Definition send (r : Request) : M St Response :=
  λ w, let '(reply, s') := handle (server w) r in
       let w' := {| server := s'; trace := trace w ++ [Sent r] |} in
       match reply with
       | Responded response => (Returns response, w')
       | Failed f => (Raises (transport_exception f), w')
       end.

Definition get_request (url : string) (github_token : string) : Request :=
  {| method := GET; url := url; headers := api_headers github_token;
     timeout := Some REQUEST_TIMEOUT_SECONDS |}.

Definition requests_get (url : string) (headers : list (string * string))
  (timeout : option Z) : M St Response :=
  send {| method := GET; url := url; headers := headers; timeout := timeout |}.

Definition requests_put (url : string) (headers : list (string * string))
  (timeout : option Z) : M St Response :=
  send {| method := PUT; url := url; headers := headers; timeout := timeout |}.

Definition requests_delete (url : string) (headers : list (string * string))
  (timeout : option Z) : M St Response :=
  send {| method := DELETE; url := url; headers := headers; timeout := timeout |}.

(** The [except requests.exceptions.HTTPError as exc] clause of the three
    listings: [exc.response.json().get("message", "Error")], then log and
    raise [RuntimeError] with [describe] of the message. *)
Definition listing_error {A} (describe : string → string) (exc : Exception)
  : option (M St A) :=
  match exc with
  | HTTPError exc_response _ =>
      Some (match exc_response with
            | None => raise AttributeError
            | Some r =>
                body ← lift (response_json r);
                error_message ← lift (dict_get body "message" (JStr "Error"));
                let result := describe (py_str error_message) in
                logger_error result;;
                raise (RuntimeError result)
            end)
  | _ => None
  end.

Definition repositories_url (owner : string) : string :=
  "https://api.github.com/users/" +:+ owner +:+ "/repos?per_page=100".

Definition repositories_error (owner error_message : string) : string :=
  "ERROR reading repositories for user " +:+ owner +:+ ": " +:+ error_message.

Definition get_repositories (fuel : nat) (owner github_token : string)
  : M St (list JSON) :=
  let url := repositories_url owner in
  let headers := api_headers github_token in
  repositories ←
    while_url fuel
      (λ url repositories,
         try_except
           (response ← requests_get url headers (Some REQUEST_TIMEOUT_SECONDS);
            lift (raise_for_status response);;
            data ← lift (response_json response);
            names ← lift (repository_names data);
            mret (repositories ++ names, next_link response))
           (listing_error (repositories_error owner)))
      (Some url) [];
  logger_info ("Found " +:+ pretty (length repositories) +:+ " repositories for user " +:+ owner);;
  mret repositories.

Definition workflows_url (owner repository : string) : string :=
  "https://api.github.com/repos/" +:+ owner +:+ "/" +:+ repository
    +:+ "/actions/workflows?per_page=100".

Definition workflows_error (owner repository error_message : string) : string :=
  "ERROR reading workflows for user: " +:+ owner +:+ ", repository: " +:+ repository
    +:+ ", " +:+ error_message.

Definition get_workflows (fuel : nat) (owner repository github_token : string)
  : M St (list string) :=
  let url := workflows_url owner repository in
  let headers := api_headers github_token in
  workflows ←
    while_url fuel
      (λ url workflows,
         try_except
           (response ← requests_get url headers (Some REQUEST_TIMEOUT_SECONDS);
            lift (raise_for_status response);;
            data ← lift (response_json response);
            names ← lift (workflow_filenames data);
            mret (workflows ++ names, next_link response))
           (listing_error (workflows_error owner repository)))
      (Some url) [];
  logger_info ("Found " +:+ pretty (length workflows) +:+ " workflows for user: " +:+ owner
                 +:+ ", repository: " +:+ repository);;
  mret workflows.

Definition runs_url (owner repository : string) : string :=
  "https://api.github.com/repos/" +:+ owner +:+ "/" +:+ repository
    +:+ "/actions/runs?per_page=100".

Definition runs_error (owner repository error_message : string) : string :=
  "ERROR reading workflow runs for user: " +:+ owner +:+ ", repository: " +:+ repository
    +:+ ", " +:+ error_message.

Definition get_workflow_runs (fuel : nat) (owner repository github_token : string)
  : M St (list JSON) :=
  let url := runs_url owner repository in
  let headers := api_headers github_token in
  workflow_run_ids ←
    while_url fuel
      (λ url workflow_run_ids,
         try_except
           (response ← requests_get url headers (Some REQUEST_TIMEOUT_SECONDS);
            lift (raise_for_status response);;
            data ← lift (response_json response);
            ids ← lift (run_ids data);
            mret (workflow_run_ids ++ ids, next_link response))
           (listing_error (runs_error owner repository)))
      (Some url) [];
  logger_info ("Found " +:+ pretty (length workflow_run_ids) +:+ " workflow runs for user: "
                 +:+ owner +:+ ", repository: " +:+ repository);;
  mret workflow_run_ids.

(** *** The pages of a listing

    The three loops above have one shape.  [listing_step] is their body with
    the extraction and the error text as parameters, [page_items] is what
    the body takes from a response, and [reads] follows the server through
    the pages a loop fetches. *)

Definition listing_step {A} (extract : JSON → Outcome (list A))
  (describe : string → string) (github_token : string)
  (url : string) (items : list A) : M St (list A * option string) :=
  try_except
    (response ← requests_get url (api_headers github_token) (Some REQUEST_TIMEOUT_SECONDS);
     lift (raise_for_status response);;
     data ← lift (response_json response);
     found ← lift (extract data);
     mret (items ++ found, next_link response))
    (listing_error describe).

Definition page_items {A} (extract : JSON → Outcome (list A)) (response : Response)
  : Outcome (list A) :=
  raise_for_status response;; data ← response_json response; extract data.

(** The items of a page that has some, and none otherwise. *)
Definition items_of {A} (o : Outcome (list A)) : list A :=
  match o with
  | Returns found => found
  | _ => []
  end.

(** [reads s url pages s' next]: from state [s], fetching from [url] and
    following each page's [next] link, the server answers with [pages] (each
    with the address it was fetched from) and is left in [s']; [next] is the
    link of the last page read. *)
Inductive reads (github_token : string)
  : St → option string → list (string * Response) → St → option string → Prop :=
| reads_done s next :
    reads github_token s next [] s next
| reads_page s u response s1 pages s' next :
    Py.truthy u = true →
    handle s (get_request u github_token) = (Responded response, s1) →
    reads github_token s1 (next_link response) pages s' next →
    reads github_token s (Some u) ((u, response) :: pages) s' next.

(** What it is for [listing], which starts at [first_url] and extracts with
    [extract], to return all pages or none.  After pages that all carry
    items: when the last names no further page, the listing returns their
    items in page order, as many as the pages hold together, and has sent
    one GET per page; when the next page is answered with a 4xx or 5xx
    status, the listing raises. *)
Definition all_or_nothing {A} (github_token : string) (listing : nat → M St (list A))
  (first_url : string) (extract : JSON → Outcome (list A)) : Prop :=
  ∀ (fuel : nat) (w : World St) (pages : list (string * Response)) (s' : St)
    (next : option string),
    reads github_token (server w) (Some first_url) pages s' next →
    Forall (λ page, ∃ found, page_items extract page.2 = Returns found) pages →
    (length pages < fuel)%nat →
    (Py.truthy_opt next = false →
       ∃ w', listing fuel w
             = (Returns (concat ((λ page, items_of (page_items extract page.2)) <$> pages)), w')
             ∧ server w' = s'
             ∧ requests_of (trace w')
               = requests_of (trace w) ++ ((λ page, get_request page.1 github_token) <$> pages)
             ∧ length (concat ((λ page, items_of (page_items extract page.2)) <$> pages))
               = sum_list ((λ page, length (items_of (page_items extract page.2))) <$> pages))
    ∧ (∀ u response s'',
         next = Some u → Py.truthy u = true →
         handle s' (get_request u github_token) = (Responded response, s'') →
         400 ≤ status_code response < 600 →
         ∃ exc w', listing fuel w = (Raises exc, w')).

Definition delete_url (owner repository run_id_to_delete : string) : string :=
  "https://api.github.com/repos/" +:+ owner +:+ "/" +:+ repository +:+ "/actions/runs/"
    +:+ run_id_to_delete.

Definition delete_request (owner repository github_token run_id_to_delete : string)
  : Request :=
  {| method := DELETE; url := delete_url owner repository run_id_to_delete;
     headers := api_headers github_token; timeout := Some REQUEST_TIMEOUT_SECONDS |}.

Definition deleted (owner repository run_id_to_delete : string) : string :=
  "Deleted workflow run ID: " +:+ run_id_to_delete +:+ " for user: " +:+ owner
    +:+ ", repository: " +:+ repository.

Definition delete_error (owner repository run_id_to_delete cause : string) : string :=
  "ERROR deleting workflow run ID: " +:+ run_id_to_delete +:+ " for user: " +:+ owner
    +:+ ", repository: " +:+ repository +:+ ": " +:+ cause.

Definition delete_workflow_run (owner repository github_token run_id_to_delete : string)
  : M St unit :=
  let url := delete_url owner repository run_id_to_delete in
  let headers := api_headers github_token in
  try_except
    (response ← requests_delete url headers (Some REQUEST_TIMEOUT_SECONDS);
     if decide (status_code response = 204) then
       logger_info (deleted owner repository run_id_to_delete)
     else mret ())
    (λ exc,
       if is_RequestException exc then
         Some (let result_error_message :=
                 delete_error owner repository run_id_to_delete (exception_str exc) in
               logger_error result_error_message;;
               raise (RuntimeError result_error_message))
       else None).

Definition enable_url (owner repository workflow_filename : string) : string :=
  "https://api.github.com/repos/" +:+ owner +:+ "/" +:+ repository
    +:+ "/actions/workflows/" +:+ workflow_filename +:+ "/enable".

Definition enable_headers (github_token : string) : list (string * string) :=
  [("Accept", "application/vnd.github.v3+json");
   ("Authorization", "Bearer " +:+ github_token)].

Definition enable_request (owner repository workflow_filename github_token : string)
  : Request :=
  {| method := PUT; url := enable_url owner repository workflow_filename;
     headers := enable_headers github_token; timeout := Some REQUEST_TIMEOUT_SECONDS |}.

Definition skipped_pages (repository workflow_filename : string) : string :=
  "Repository " +:+ repository +:+ ", workflow " +:+ workflow_filename
    +:+ " skipped - those can not be enabled".

Definition skipped_dependabot (repository workflow_filename : string) : string :=
  "Repository " +:+ repository +:+ ", workflow " +:+ workflow_filename
    +:+ " skipped - managed by Dependabot".

Definition enabled (repository workflow_filename : string) : string :=
  "Enabled repository " +:+ repository +:+ ", workflow " +:+ workflow_filename.

Definition enable_error (repository workflow_filename error_message : string) : string :=
  "ERROR enabling repository " +:+ repository +:+ ", workflow " +:+ workflow_filename
    +:+ ": " +:+ error_message.

(** The message the handler of [enable_workflow] takes from [resp]:
    [resp.json().get("message", "Error")], and when [json()] raises
    [ValueError], [resp.text or resp.reason or "Error"]. *)
Definition enable_error_message (resp : Response) : M St string :=
  try_except
    (body ← lift (response_json resp);
     message ← lift (dict_get body "message" (JStr "Error"));
     mret (py_str message))
    (λ inner, if is_ValueError inner
              then Some (mret (Py.or_else (text resp) (Py.or_else (reason resp) "Error")))
              else None).

(** The [except requests.exceptions.HTTPError as exc] clause of
    [enable_workflow]; [response] is the local variable of that name as it
    stands when the exception arrives. *)
Definition enable_handler {A} (repository workflow_filename : string)
  (response : option Response) (exc : Exception) : option (M St A) :=
  match exc with
  | HTTPError exc_response _ =>
      Some (let resp := match exc_response with
                        | Some r => Some r
                        | None => response
                        end in
            error_message ← match resp with
                            | Some resp => enable_error_message resp
                            | None => mret (exception_str exc)
                            end;
            let result := enable_error repository workflow_filename error_message in
            logger_error result;;
            raise (RuntimeError result))
  | _ => None
  end.

Definition enable_workflow (owner repository workflow_filename github_token : string)
  : M St string :=
  let url := enable_url owner repository workflow_filename in
  let headers := enable_headers github_token in
  if Py.startswith workflow_filename "pages-build-deployment" then
    mret (skipped_pages repository workflow_filename)
  else if Py.startswith workflow_filename "dependabot" then
    mret (skipped_dependabot repository workflow_filename)
  else
    response ← try_except (requests_put url headers (Some REQUEST_TIMEOUT_SECONDS))
                 (enable_handler repository workflow_filename None);
    try_except
      (lift (raise_for_status response);;
       let result := enabled repository workflow_filename in
       logger_info result;;
       mret result)
      (enable_handler repository workflow_filename (Some response)).

Definition activate_line (repository workflow_filename : string) : string :=
  "activate workflow " +:+ repository +:+ "/" +:+ workflow_filename.

Definition activating_line (owner : string) : string :=
  "Activating and maintaining all workflows for owner " +:+ owner +:+ ":".

(** The body of [for workflow_filename in workflows]. *)
Definition activate_workflow (owner github_token repository workflow_filename : string)
  : M St unit :=
  print (activate_line repository workflow_filename);;
  enable_workflow owner repository workflow_filename github_token;;
  mret ().

(** The body of [for repository in repositories] in [enable_all_workflows]. *)
Definition activate_repository (fuel : nat) (owner github_token repository : string)
  : M St unit :=
  workflows ← get_workflows fuel owner repository github_token;
  for_each workflows (activate_workflow owner github_token repository).

(** A repository name, and a run identifier below, is whatever value the
    listing found.  The sweep puts it into f-strings, and so do the functions
    it is passed to, and nothing else is done with it; an f-string formats a
    value as [str] does.  So each loop is written over the texts of the
    values, and the functions called take the text. *)
Definition enable_all_workflows (fuel : nat) (owner github_token : string) : M St unit :=
  print (activating_line owner);;
  repositories ← get_repositories fuel owner github_token;
  for_each (py_str <$> repositories) (activate_repository fuel owner github_token).

(** [sorted(workflow_run_ids, reverse=True)[number_of_workflow_runs_to_keep:]]
    for identifiers that are integers, as GitHub sends them. *)
Definition workflow_run_ids_to_delete (number_of_workflow_runs_to_keep : Z)
  (workflow_run_ids : list Z) : list Z :=
  let workflow_run_ids_sorted := Py.sorted_reverse workflow_run_ids in
  Py.slice_from number_of_workflow_runs_to_keep workflow_run_ids_sorted.

(** The integers of values that are all integers, and the strings of values
    that are all strings. *)
Definition integers (values : list JSON) : option (list Z) :=
  mapM (λ v, match v with JInt n => Some n | _ => None end) values.

Definition strings (values : list JSON) : option (list string) :=
  mapM (λ v, match v with JStr s => Some s | _ => None end) values.

(** [None] and a [dict] have no [<]. *)
Definition unorderable (v : JSON) : bool :=
  match v with
  | JNull | JObj _ => true
  | _ => false
  end.

Definition int_or_str (v : JSON) : bool :=
  match v with
  | JInt _ | JStr _ => true
  | _ => false
  end.

(** The same expression on the values the listing returned.  [sorted]
    compares them with [<]: integers by value, strings character by
    character.  One value alone is compared with nothing.  Among two values
    or more each is compared with another, and [sorted] raises [TypeError]
    at the first comparison that has no answer: one with [None] or a [dict],
    or one between an integer and a string, which takes place when both are
    there.  Booleans and arrays have an order that the model leaves out. *)
Definition deletion_set (number_of_workflow_runs_to_keep : Z) (workflow_run_ids : list JSON)
  : Outcome (list JSON) :=
  match integers workflow_run_ids, strings workflow_run_ids with
  | Some ids, _ => Returns (JInt <$> workflow_run_ids_to_delete number_of_workflow_runs_to_keep ids)
  | None, Some names =>
      Returns (JStr <$> Py.slice_from number_of_workflow_runs_to_keep
                          (Py.sorted_reverse_str names))
  | None, None =>
      match workflow_run_ids with
      | [_] => Returns (Py.slice_from number_of_workflow_runs_to_keep workflow_run_ids)
      | _ =>
          if existsb unorderable workflow_run_ids || forallb int_or_str workflow_run_ids
          then Raises TypeError
          else Unmodelled
      end
  end.

Definition remove_line (repository run_id_to_delete : string) : string :=
  "remove workflow run " +:+ repository +:+ "/" +:+ run_id_to_delete.

Definition removing_line (owner : string) (number_of_workflow_runs_to_keep : Z) : string :=
  "Removing outdated workflow executions for owner " +:+ owner
    +:+ ", while retaining a maximum of " +:+ pretty number_of_workflow_runs_to_keep
    +:+ " workflow runs per repository:".

Definition to_delete_line (repository : string) (found to_delete : nat) : string :=
  "repository: " +:+ repository +:+ ", " +:+ pretty found +:+ " workflow runs found, "
    +:+ pretty to_delete +:+ " to delete.".

(** The body of [for run_id_to_delete in workflow_run_ids_to_delete]. *)
Definition remove_run (owner github_token repository run_id_to_delete : string)
  : M St unit :=
  print (remove_line repository run_id_to_delete);;
  delete_workflow_run owner repository github_token run_id_to_delete.

(** The body of [for repository in l_repositories] in
    [delete_old_workflow_runs]. *)
Definition prune_repository (fuel : nat) (owner github_token : string)
  (number_of_workflow_runs_to_keep : Z) (repository : string) : M St unit :=
  workflow_run_ids ← get_workflow_runs fuel owner repository github_token;
  to_delete ← lift (deletion_set number_of_workflow_runs_to_keep workflow_run_ids);
  logger_info (to_delete_line repository (length workflow_run_ids) (length to_delete));;
  for_each (py_str <$> to_delete) (remove_run owner github_token repository).

Definition delete_old_workflow_runs (fuel : nat) (owner github_token : string)
  (number_of_workflow_runs_to_keep : Z) : M St unit :=
  print (removing_line owner number_of_workflow_runs_to_keep);;
  l_repositories ← get_repositories fuel owner github_token;
  for_each (py_str <$> l_repositories)
    (prune_repository fuel owner github_token number_of_workflow_runs_to_keep).

(** [main]: the arguments of each call are looked up just before it. *)
Definition main (env : Env) (fuel : nat) : M St unit :=
  owner ← lift (get_owner env);
  github_token ← lift (get_github_token env);
  enable_all_workflows fuel owner github_token;;
  owner ← lift (get_owner env);
  github_token ← lift (get_github_token env);
  delete_old_workflow_runs fuel owner github_token 50.

End Program.

(** ** keep_github_workflows_active.py, the older module

    Its listings, [delete_workflow_run] and the two sweeps read as above
    (without the request timeout).  [enable_workflow] differs: it has no rule
    for Dependabot, and its handler reads the message with
    [response.json().get("message", "Error")] and nothing else. *)

Module Legacy.
Section Program.

Context {St : Type}.
Variable handle : St → Request → Reply * St.

Definition enable_workflow (owner repository workflow_filename github_token : string)
  : M St string :=
  let url := enable_url owner repository workflow_filename in
  let headers := enable_headers github_token in
  if Py.startswith workflow_filename "pages-build-deployment" then
    mret (skipped_pages repository workflow_filename)
  else
    response ← requests_put handle url headers None;
    try_except
      (lift (raise_for_status response);;
       let result := enabled repository workflow_filename in
       logger_info result;;
       mret result)
      (λ exc, match exc with
              | HTTPError _ _ =>
                  Some (body ← lift (response_json response);
                        error_message ← lift (dict_get body "message" (JStr "Error"));
                        let result := enable_error repository workflow_filename
                                        (py_str error_message) in
                        logger_error result;;
                        raise (RuntimeError result))
              | _ => None
              end).

End Program.
End Legacy.

(** ** A server for the examples

    A table of routes, answered without memory; a request the table does not
    list is answered 404 with GitHub's [Not Found] document. *)

Module Example.

Definition quoted (s : string) : string :=
  String "034" (s +:+ String "034" EmptyString).

(** [json.dumps(v)], for strings that need no escape. *)
Fixpoint dumps (v : JSON) : string :=
  match v with
  | JNull => "null"
  | JBool true => "true"
  | JBool false => "false"
  | JInt n => pretty n
  | JStr s => quoted s
  | JArr items =>
      "[" +:+ (fix go (l : list JSON) : string :=
                 match l with
                 | [] => EmptyString
                 | [x] => dumps x
                 | x :: rest => dumps x +:+ ", " +:+ go rest
                 end) items +:+ "]"
  | JObj fields =>
      "{" +:+ (fix go (l : list (string * JSON)) : string :=
                 match l with
                 | [] => EmptyString
                 | [(k, x)] => quoted k +:+ ": " +:+ dumps x
                 | (k, x) :: rest => quoted k +:+ ": " +:+ dumps x +:+ ", " +:+ go rest
                 end) fields +:+ "}"
  end.

(** A response whose body is the document [body]. *)
Definition document (status : Z) (phrase : string) (body : JSON)
  (next : option string) : Response :=
  {| status_code := status; reason := phrase; text := dumps body; json := Some body;
     links := match next with
              | Some u => {[ "next" := {[ "url" := u; "rel" := "next" ]} ]}
              | None => ∅
              end;
     response_url := EmptyString |}.

(** A response whose body is the text [body], which is no JSON document. *)
Definition plain (status : Z) (phrase body : string) : Response :=
  {| status_code := status; reason := phrase; text := body; json := None;
     links := ∅; response_url := EmptyString |}.

Definition not_found : Response :=
  document 404 "Not Found" (JObj [("message", JStr "Not Found")]) None.

Definition no_content : Response := plain 204 "No Content" EmptyString.

Definition named (name : string) : JSON := JObj [("name", JStr name)].
Definition at_path (path : string) : JSON := JObj [("path", JStr path)].
Definition run (id : Z) : JSON := JObj [("id", JInt id)].

Definition page_2 : string := "https://api.github.com/user/7/repos?per_page=100&page=2".
Definition dave_page_2 : string := "https://api.github.com/user/9/repos?per_page=100&page=2".

Definition routes : list (Method * string * Reply) :=
  [ (* alice: three repositories on two pages *)
    (GET, repositories_url "alice",
      Responded (document 200 "OK" (JArr [named "lib_x"]) (Some page_2)));
    (GET, page_2,
      Responded (document 200 "OK" (JArr [named "lib_y"; named "lib_z"]) None));
    (GET, workflows_url "alice" "lib_x",
      Responded (document 200 "OK"
                   (JObj [("total_count", JInt 2);
                          ("workflows", JArr [at_path ".github/workflows/ci.yml";
                                              at_path ".github/workflows/dependabot-updates.yml"])])
                   None));
    (GET, workflows_url "alice" "lib_y",
      Responded (document 200 "OK"
                   (JObj [("total_count", JInt 2);
                          ("workflows", JArr [at_path ".github/workflows/broken.yml";
                                              at_path ".github/workflows/later.yml"])])
                   None));
    (GET, workflows_url "alice" "lib_z",
      Responded (document 200 "OK"
                   (JObj [("total_count", JInt 1);
                          ("workflows", JArr [at_path ".github/workflows/ci.yml"])])
                   None));
    (PUT, enable_url "alice" "lib_x" "ci.yml", Responded no_content);
    (PUT, enable_url "alice" "lib_z" "ci.yml", Responded no_content);
    (GET, runs_url "alice" "lib_x",
      Responded (document 200 "OK"
                   (JObj [("total_count", JInt 3);
                          ("workflow_runs", JArr [run 3; run 1; run 2])])
                   None));
    (GET, runs_url "alice" "lib_y",
      Responded (document 200 "OK"
                   (JObj [("total_count", JInt 2);
                          ("workflow_runs", JArr [run 11; run 12])])
                   None));
    (DELETE, delete_url "alice" "lib_x" "1", Responded no_content);
    (DELETE, delete_url "alice" "lib_x" "2", Failed (ConnectionFailed "Connection aborted."));
    (DELETE, delete_url "alice" "lib_y" "11", Responded no_content);
    (* carol: answers outside 2xx that are no errors to raise_for_status *)
    (GET, repositories_url "carol",
      Responded (document 300 "Multiple Choices" (JArr [named "mirror"]) None));
    (PUT, enable_url "carol" "mirror" "ci.yml", Responded (plain 304 "Not Modified" EmptyString));
    (* carol: error answers with bodies of several shapes *)
    (PUT, enable_url "carol" "mirror" "bare.yml",
      Responded (document 403 "Forbidden" (JObj []) None));
    (PUT, enable_url "carol" "mirror" "list.yml",
      Responded (document 404 "Not Found" (JArr []) None));
    (PUT, enable_url "carol" "mirror" "html.yml",
      Responded (plain 502 "Bad Gateway" "<html>Bad Gateway</html>"));
    (PUT, enable_url "carol" "mirror" "reason.yml",
      Responded (plain 503 "Service Unavailable" EmptyString));
    (PUT, enable_url "carol" "mirror" "empty.yml",
      Responded (plain 500 EmptyString EmptyString));
    (* dave: the second page of repositories fails *)
    (GET, repositories_url "dave",
      Responded (document 200 "OK" (JArr [named "one"; named "two"]) (Some dave_page_2)));
    (GET, dave_page_2,
      Responded (document 500 "Internal Server Error"
                   (JObj [("message", JStr "Server Error")]) None)) ].

Definition github (s : unit) (r : Request) : Reply * unit :=
  (default (Responded not_found)
     (snd <$> find (λ route, bool_decide (route.1.1 = method r ∧ route.1.2 = url r)) routes),
   s).

(** The world before the program starts. *)
Definition start : World unit := {| server := (); trace := [] |}.

(** Surroundings for the examples: the working directory and the package
    directory are apart, and no path is a link. *)
Definition home : Path := ["home"; "me"].
Definition package : Path := ["opt"; "repo"; "keep_github_workflows_active"].

(** [files] tells what reading each path that exists comes to. *)
Definition surroundings (variables : gmap string string)
  (files : list (Path * Reading)) : Env :=
  {| environ := variables; cwd := home; script_dir := package; resolve := λ p, p;
     path_exists := λ p, bool_decide (is_Some (find (λ file, bool_decide (file.1 = p)) files));
     read_lines := λ p, default (Unreadable FileNotFoundError)
                          (snd <$> find (λ file, bool_decide (file.1 = p)) files) |}.

(** Nothing set, and one file in the package directory. *)
Definition from_file : Env :=
  surroundings ∅
    [(path_join package ".env",
      Lines ["# credentials"; "SECRET_GITHUB_OWNER = alice"; "SECRET_GITHUB_TOKEN='t'";
             "no separator"])].






End Example.

(** ** What a computation adds to the trace *)

(** [appends ok m]: in every world, [m] leaves the trace it found in place
    and adds to it only events that satisfy [ok]. *)
Definition appends {St A} (ok : Event → Prop) (m : M St A) : Prop :=
  ∀ w : World St, ∃ extra, trace (m w).2 = trace w ++ extra ∧ Forall ok extra.

(** A request of the program: it carries the token as a bearer
    authorization, asks for the v3 media type, and waits thirty seconds at
    most. *)
Definition authorized (github_token : string) (r : Request) : Prop :=
  assoc "Authorization" (headers r) = Some ("Bearer " +:+ github_token)
  ∧ assoc "Accept" (headers r) = Some "application/vnd.github.v3+json"
  ∧ timeout r = Some REQUEST_TIMEOUT_SECONDS.

(** An event of a sweep that may use the methods [allowed]. *)
Definition sweep_event (github_token : string) (allowed : list Method) (ev : Event) : Prop :=
  match ev with
  | Sent r => authorized github_token r ∧ method r ∈ allowed
  | _ => True
  end.

(** ** More servers for the examples *)

Module Scenario.

(** A server that answers from a table and falls back on [otherwise]. *)
Definition serve (routes : list (Method * string * Reply)) (otherwise : Reply)
  (s : unit) (r : Request) : Reply * unit :=
  (default otherwise
     (snd <$> find (λ route, bool_decide (route.1.1 = method r ∧ route.1.2 = url r)) routes),
   s).

Definition page_2 : string := "https://api.github.com/user/3/repos?per_page=100&page=2".

(** The first page of erin's repositories arrives, the second is cut by the
    transport; everything else is lost too. *)
Definition cut : unit → Request → Reply * unit :=
  serve [(GET, repositories_url "erin",
           Responded (Example.document 200 "OK" (JArr [Example.named "one"]) (Some page_2)))]
        (Failed (TimedOut "Read timed out. (read timeout=30)")).

(** Pages that are not as expected: a 200 that is a web page, a repository
    entry without a name, a workflow document that is a list, a run whose
    identifier is a string, a 502 whose body is a web page, and a 404 whose
    body is a JSON string. *)
Definition garbled : unit → Request → Reply * unit :=
  serve [(GET, repositories_url "web",
           Responded (Example.plain 200 "OK" "<html>Sign in</html>"));
         (GET, repositories_url "nameless",
           Responded (Example.document 200 "OK"
                        (JArr [Example.named "one"; JObj [("id", JInt 7)]]) None));
         (GET, workflows_url "erin" "one",
           Responded (Example.document 200 "OK" (JArr []) None));
         (GET, runs_url "erin" "one",
           Responded (Example.document 200 "OK"
                        (JObj [("workflow_runs", JArr [JObj [("id", JStr "7")]])]) None));
         (GET, repositories_url "gateway",
           Responded (Example.plain 502 "Bad Gateway" "<html>Bad Gateway</html>"));
         (GET, repositories_url "quoted",
           Responded (Example.document 404 "Not Found" (JStr "Not Found") None))]
        (Responded Example.not_found).

(** A server whose every page names a further page. *)
Definition endless (s : nat) (r : Request) : Reply * nat :=
  (Responded (Example.document 200 "OK" (JArr [Example.named ("repo" +:+ pretty s)])
                (Some ("https://api.github.com/user/3/repos?page=" +:+ pretty (S s)))),
   S s).

(** Two repositories; the workflows and the runs of the second cannot be
    listed. *)
Definition half : unit → Request → Reply * unit :=
  serve [(GET, repositories_url "erin",
           Responded (Example.document 200 "OK"
                        (JArr [Example.named "one"; Example.named "two";
                               Example.named "three"]) None));
         (GET, workflows_url "erin" "one",
           Responded (Example.document 200 "OK" (JObj [("total_count", JInt 0)]) None));
         (GET, runs_url "erin" "one",
           Responded (Example.document 200 "OK"
                        (JObj [("workflow_runs", JArr [Example.run 5; Example.run 4])]) None));
         (DELETE, delete_url "erin" "one" "4", Responded Example.no_content);
         (DELETE, delete_url "erin" "one" "5", Responded Example.no_content)]
        (Responded (Example.document 403 "Forbidden"
                      (JObj [("message", JStr "Resource not accessible")]) None)).

(** An owner with one repository of 73 runs, numbered from 1; every other
    request is answered 204. *)
Definition busy : unit → Request → Reply * unit :=
  serve [(GET, repositories_url "frank",
           Responded (Example.document 200 "OK" (JArr [Example.named "big"]) None));
         (GET, runs_url "frank" "big",
           Responded (Example.document 200 "OK"
                        (JObj [("workflow_runs", JArr (Example.run <$> seqZ 1 73))]) None))]
        (Responded Example.no_content).

End Scenario.

(** ** How a listing ends on a page it cannot use *)

(** [ends_with handle token listing first_url extract reply exc]: after
    pages that all carry items, when the request for the next page gets
    [reply], the listing raises [exc]; what it has added to the trace is the
    GET of each page and of that last one, and no line of the log. *)
Definition ends_with {St A} (handle : St → Request → Reply * St) (github_token : string)
  (listing : nat → M St (list A)) (first_url : string)
  (extract : JSON → Outcome (list A)) (reply : Reply) (exc : Exception) : Prop :=
  ∀ (fuel : nat) (w : World St) (pages : list (string * Response)) (s' : St) (u : string)
    (s'' : St),
    reads handle github_token (server w) (Some first_url) pages s' (Some u) →
    Forall (λ page, ∃ found, page_items extract page.2 = Returns found) pages →
    (length pages < fuel)%nat →
    Py.truthy u = true →
    handle s' (get_request u github_token) = (reply, s'') →
    listing fuel w
    = (Raises exc,
       {| server := s'';
          trace := trace w ++ ((λ page, Sent (get_request page.1 github_token)) <$> pages)
                     ++ [Sent (get_request u github_token)] |}).

(** The exceptions that reading a decoded page can raise. *)
Definition reading_error (exc : Exception) : Prop :=
  match exc with
  | JSONDecodeError | KeyError _ | TypeError | AttributeError => True
  | _ => False
  end.

(** * Properties *)

(** ** Sorting and slicing *)

Section Pruning.

#[local] Instance Z_ge_total : Total Z.ge.
Proof. intros x y. lia. Qed.

#[local] Instance Z_ge_trans : Transitive Z.ge.
Proof. intros x y z. lia. Qed.

#[local] Instance Z_ge_antisymm : AntiSymm (=) Z.ge.
Proof. intros x y. lia. Qed.

Lemma Sorted_flip_le_ge (l : list Z) : Sorted (flip Z.le) l → Sorted Z.ge l.
Proof.
  induction 1 as [|x l _ IH Hhd]; constructor; [exact IH|].
  destruct Hhd as [|y l Hxy]; constructor. unfold flip in Hxy. lia.
Qed.

(** [sorted(l, reverse=True)] is the ascending sort read backwards. *)
Lemma sorted_reverse_spec (l : list Z) : Py.sorted_reverse l = reverse (Py.sorted l).
Proof.
  unfold Py.sorted_reverse, Py.sorted.
  apply (Sorted_unique Z.ge).
  - apply Sorted_merge_sort; apply _.
  - apply Sorted_flip_le_ge, Sorted_reverse, Sorted_merge_sort; apply _.
  - rewrite merge_sort_Permutation, reverse_Permutation, merge_sort_Permutation.
    reflexivity.
Qed.

Lemma sorted_reverse_Permutation (l : list Z) : Py.sorted_reverse l ≡ₚ l.
Proof. apply merge_sort_Permutation. Qed.

Lemma sorted_reverse_StronglySorted (l : list Z) : StronglySorted Z.ge (Py.sorted_reverse l).
Proof. apply StronglySorted_merge_sort; apply _. Qed.

Lemma length_sorted_reverse (l : list Z) : length (Py.sorted_reverse l) = length l.
Proof. apply Permutation_length, sorted_reverse_Permutation. Qed.

Lemma length_sorted (l : list Z) : length (Py.sorted l) = length l.
Proof. apply Permutation_length, merge_sort_Permutation. Qed.

Lemma slice_from_nonneg {A} (k : Z) (l : list A) :
  0 ≤ k → Py.slice_from k l = drop (Z.to_nat k) l.
Proof. intros Hk. unfold Py.slice_from. case_decide; [lia|done]. Qed.

Lemma slice_from_neg {A} (k : nat) (l : list A) :
  (1 ≤ k)%nat → Py.slice_from (- Z.of_nat k) l = drop (length l - k) l.
Proof.
  intros Hk. unfold Py.slice_from. case_decide; [|lia].
  f_equal. lia.
Qed.

(** The deletion set for a retention count that is not negative: the
    smallest identifiers beyond the [keep] largest, largest first. *)
Lemma to_delete_nonneg (keep : Z) (ids : list Z) :
  0 ≤ keep →
  workflow_run_ids_to_delete keep ids
  = reverse (take (length ids - Z.to_nat keep) (Py.sorted ids)).
Proof.
  intros Hk. unfold workflow_run_ids_to_delete.
  rewrite slice_from_nonneg by done.
  rewrite sorted_reverse_spec, drop_reverse, length_sorted. done.
Qed.

(** The deletion set for a negative retention count [-k]: the [k] smallest
    identifiers (all of them when there are no more than [k]). *)
Lemma to_delete_neg (k : nat) (ids : list Z) :
  (1 ≤ k)%nat →
  workflow_run_ids_to_delete (- Z.of_nat k) ids
  = reverse (take (min k (length ids)) (Py.sorted ids)).
Proof.
  intros Hk. unfold workflow_run_ids_to_delete.
  rewrite slice_from_neg by done.
  rewrite sorted_reverse_spec, drop_reverse, !length_reverse, length_sorted.
  do 2 f_equal. lia.
Qed.

End Pruning.

(** ** Traces *)

Lemma requests_of_app (t1 t2 : list Event) :
  requests_of (t1 ++ t2) = requests_of t1 ++ requests_of t2.
Proof. apply omap_app. Qed.

Lemma requests_of_sent (t : list Event) (r : Request) :
  requests_of (t ++ [Sent r]) = requests_of t ++ [r].
Proof. by rewrite requests_of_app. Qed.

Lemma requests_of_printed (t : list Event) (line : string) :
  requests_of (t ++ [Printed line]) = requests_of t.
Proof. rewrite requests_of_app. simpl. by rewrite app_nil_r. Qed.

Lemma requests_of_logged (t : list Event) (level : Level) (line : string) :
  requests_of (t ++ [Logged level line]) = requests_of t.
Proof. rewrite requests_of_app. simpl. by rewrite app_nil_r. Qed.

(** ** Running computations *)

Section Running.

Context {St : Type}.

Lemma bind_returns {A B} (m : M St A) (k : A → M St B) w a w' :
  m w = (Returns a, w') → (m ≫= k) w = k a w'.
Proof. intros H. unfold mbind, M_bind. by rewrite H. Qed.

Lemma bind_raises {A B} (m : M St A) (k : A → M St B) w exc w' :
  m w = (Raises exc, w') → (m ≫= k) w = (Raises exc, w').
Proof. intros H. unfold mbind, M_bind. by rewrite H. Qed.

Lemma bind_out_of_fuel {A B} (m : M St A) (k : A → M St B) w w' :
  m w = (OutOfFuel, w') → (m ≫= k) w = (OutOfFuel, w').
Proof. intros H. unfold mbind, M_bind. by rewrite H. Qed.

Lemma try_returns {A} (m : M St A) handler w a w' :
  m w = (Returns a, w') → try_except m handler w = (Returns a, w').
Proof. intros H. unfold try_except. by rewrite H. Qed.

Lemma try_caught {A} (m : M St A) handler w exc w' recover :
  m w = (Raises exc, w') → handler exc = Some recover →
  try_except m handler w = recover w'.
Proof. intros H Hh. unfold try_except. by rewrite H, Hh. Qed.

Lemma try_uncaught {A} (m : M St A) handler w exc w' :
  m w = (Raises exc, w') → handler exc = None →
  try_except m handler w = (Raises exc, w').
Proof. intros H Hh. unfold try_except. by rewrite H, Hh. Qed.

Context (handle : St → Request → Reply * St).

Lemma send_responded r (w : World St) response s' :
  handle (server w) r = (Responded response, s') →
  send handle r w = (Returns response, {| server := s'; trace := trace w ++ [Sent r] |}).
Proof. intros H. unfold send. by rewrite H. Qed.

Lemma send_failed r (w : World St) f s' :
  handle (server w) r = (Failed f, s') →
  send handle r w
  = (Raises (transport_exception f), {| server := s'; trace := trace w ++ [Sent r] |}).
Proof. intros H. unfold send. by rewrite H. Qed.

Lemma transport_exception_not_HTTPError f response message :
  transport_exception f ≠ HTTPError response message.
Proof. by destruct f. Qed.

Lemma raise_for_status_error (response : Response) :
  is_error_status (status_code response) = true →
  ∃ message, raise_for_status response = Raises (HTTPError (Some response) message).
Proof.
  unfold is_error_status, raise_for_status. intros H.
  destruct (bool_decide (400 ≤ status_code response < 500)); [by eexists|].
  destruct (bool_decide (500 ≤ status_code response < 600)); [by eexists|done].
Qed.

Lemma raise_for_status_ok (response : Response) :
  is_error_status (status_code response) = false →
  raise_for_status response = Returns ().
Proof.
  unfold is_error_status, raise_for_status. intros H.
  destruct (bool_decide (400 ≤ status_code response < 500)); [done|].
  by destruct (bool_decide (500 ≤ status_code response < 600)).
Qed.

(** The handler's message never touches the world and is always found or
    fails on a decoded body that is no object. *)
Lemma enable_error_message_cases (resp : Response) (w : World St) :
  enable_error_message resp w
  = match json resp with
    | None => (Returns (Py.or_else (text resp) (Py.or_else (reason resp) "Error")), w)
    | Some (JObj fields) =>
        (Returns (py_str (default (JStr "Error") (assoc "message" fields))), w)
    | Some _ => (Raises AttributeError, w)
    end.
Proof.
  unfold enable_error_message, try_except, mbind, M_bind, lift, response_json.
  destruct (json resp) as [[]|]; reflexivity.
Qed.

End Running.

Section Activator.

Context {St : Type} (handle : St → Request → Reply * St).

Lemma dependabot_is_not_pages (workflow_filename : string) :
  Py.startswith workflow_filename "dependabot" = true →
  Py.startswith workflow_filename "pages-build-deployment" = false.
Proof.
  unfold Py.startswith. destruct workflow_filename as [|c rest]; [done|].
  change (String.prefix "dependabot" (String c rest))
    with (if ascii_dec "d" c then String.prefix "ependabot" rest else false).
  change (String.prefix "pages-build-deployment" (String c rest))
    with (if ascii_dec "p" c then String.prefix "ages-build-deployment" rest else false).
  destruct (ascii_dec "d" c) as [<-|]; [|done]. intros _.
  by destruct (ascii_dec "p" "d").
Qed.

(** What [enable_workflow] does with a filename that no skip rule matches:
    the request goes out, and the reply decides the outcome and the line
    logged. *)
Lemma enable_workflow_run owner repository workflow_filename github_token (w : World St) :
  Py.startswith workflow_filename "pages-build-deployment" = false →
  Py.startswith workflow_filename "dependabot" = false →
  let request := enable_request owner repository workflow_filename github_token in
  enable_workflow handle owner repository workflow_filename github_token w
  = match handle (server w) request with
    | (Failed f, s') =>
        (Raises (transport_exception f), {| server := s'; trace := trace w ++ [Sent request] |})
    | (Responded response, s') =>
        let sent := {| server := s'; trace := trace w ++ [Sent request] |} in
        if is_error_status (status_code response) then
          match json response with
          | Some (JObj fields) =>
              let result := enable_error repository workflow_filename
                              (py_str (default (JStr "Error") (assoc "message" fields))) in
              (Raises (RuntimeError result), record (Logged ERROR result) sent)
          | Some _ => (Raises AttributeError, sent)
          | None =>
              let result := enable_error repository workflow_filename
                              (Py.or_else (text response)
                                 (Py.or_else (reason response) "Error")) in
              (Raises (RuntimeError result), record (Logged ERROR result) sent)
          end
        else
          (Returns (enabled repository workflow_filename),
           record (Logged INFO (enabled repository workflow_filename)) sent)
    end.
Proof.
  intros Hpages Hbot request. unfold enable_workflow. rewrite Hpages, Hbot.
  fold request.
  destruct (handle (server w) request) as [[response|f] s'] eqn:Hh.
  - erewrite bind_returns; [|eapply try_returns, send_responded, Hh].
    destruct (is_error_status (status_code response)) eqn:Hs.
    + destruct (raise_for_status_error _ Hs) as [message Hr].
      erewrite try_caught; cycle 1.
      { apply bind_raises. unfold lift. by rewrite Hr. }
      { reflexivity. }
      cbv zeta. unfold mbind at 1, M_bind at 1.
      rewrite enable_error_message_cases.
      destruct (json response) as [[]|]; reflexivity.
    + erewrite try_returns; [reflexivity|].
      erewrite bind_returns; [|unfold lift; by rewrite (raise_for_status_ok _ Hs)].
      reflexivity.
  - erewrite bind_raises; [reflexivity|].
    eapply try_uncaught; [eapply send_failed, Hh|].
    by destruct f.
Qed.
End Activator.

(** C4. The outcome of [enable_workflow] is decided by the prefix of the
    filename.  A name that starts with [pages-build-deployment] is skipped and
    the world is left as it was: no request.  So is a name that starts with
    [dependabot].  For any other name exactly one request, the PUT to the
    enable address, is added to the requests sent, and a response with a 2xx
    status makes the function return the [Enabled] message. *)
Theorem enable_workflow_classification {St} (handle : St → Request → Reply * St)
  (owner repository workflow_filename github_token : string) (w : World St) :
  (Py.startswith workflow_filename "pages-build-deployment" = true →
     enable_workflow handle owner repository workflow_filename github_token w
     = (Returns (skipped_pages repository workflow_filename), w))
  ∧ (Py.startswith workflow_filename "dependabot" = true →
     enable_workflow handle owner repository workflow_filename github_token w
     = (Returns (skipped_dependabot repository workflow_filename), w))
  ∧ (Py.startswith workflow_filename "pages-build-deployment" = false →
     Py.startswith workflow_filename "dependabot" = false →
     ∃ outcome w',
       enable_workflow handle owner repository workflow_filename github_token w = (outcome, w')
       ∧ requests_of (trace w')
         = requests_of (trace w)
             ++ [enable_request owner repository workflow_filename github_token]
       ∧ ∀ response s',
           handle (server w) (enable_request owner repository workflow_filename github_token)
           = (Responded response, s') →
           200 ≤ status_code response < 300 →
           outcome = Returns (enabled repository workflow_filename)).
Proof.
  split; [|split].
  - intros Hpages. unfold enable_workflow. by rewrite Hpages.
  - intros Hbot. unfold enable_workflow.
    by rewrite (dependabot_is_not_pages _ Hbot), Hbot.
  - intros Hpages Hbot.
    rewrite (enable_workflow_run handle _ _ _ _ w Hpages Hbot). cbv zeta.
    destruct (handle (server w) _) as [[response|f] s'].
    + destruct (is_error_status (status_code response)) eqn:Hs.
      * destruct (json response) as [[]|]; eexists _, _;
          (split; [reflexivity|]);
          (split; [simpl; by rewrite ?requests_of_logged, requests_of_sent|]);
          intros ? ? [= <- <-] H2xx; unfold is_error_status in Hs;
          repeat case_bool_decide; (done || lia).
      * eexists _, _. split; [reflexivity|].
        split; [simpl; by rewrite requests_of_logged, requests_of_sent|].
        by intros ? ? [= <- <-] _.
    + eexists _, _. split; [reflexivity|].
      split; [simpl; by rewrite requests_of_sent|]. by intros ? ? [=].
Qed.

(** The three filenames of the specification, on the example server. *)
Lemma enable_workflow_classification_witness :
  enable_workflow Example.github "alice" "lib_x" "pages-build-deployment-x.yml" "t" Example.start
  = (Returns (skipped_pages "lib_x" "pages-build-deployment-x.yml"), Example.start)
  ∧ enable_workflow Example.github "alice" "lib_x" "dependabot-y.yml" "t" Example.start
    = (Returns (skipped_dependabot "lib_x" "dependabot-y.yml"), Example.start)
  ∧ ∃ outcome w',
      enable_workflow Example.github "alice" "lib_x" "ci.yml" "t" Example.start = (outcome, w')
      ∧ requests_of (trace w') = [enable_request "alice" "lib_x" "ci.yml" "t"]
      ∧ outcome = Returns (enabled "lib_x" "ci.yml").
Proof.
  split; [|split].
  - apply (enable_workflow_classification Example.github). reflexivity.
  - apply (enable_workflow_classification Example.github). reflexivity.
  - destruct (enable_workflow_classification Example.github "alice" "lib_x" "ci.yml" "t"
                Example.start) as (_ & _ & H).
    destruct (H eq_refl eq_refl) as (outcome & w' & Hrun & Hsent & H2xx).
    exists outcome, w'. split; [exact Hrun|]. split; [exact Hsent|].
    apply (H2xx Example.no_content ()); [reflexivity|]. simpl. lia.
Defined.

Lemma is_error_status_spec (status : Z) :
  is_error_status status = true ↔ 400 ≤ status < 600.
Proof.
  unfold is_error_status. rewrite orb_true_iff, !bool_decide_eq_true. lia.
Qed.

(** C7, amended.  When the enable request is answered with a 4xx or 5xx
    status, [enable_workflow] logs and raises [RuntimeError] with a message
    that ends in: the [message] field of the body, when the body is a JSON
    object that has one; the word [Error], when the body is a JSON object
    without it; and when the body is no JSON at all, the response text, or
    the reason when the text is empty, or [Error] when both are empty. *)
Theorem enable_failure_message {St} (handle : St → Request → Reply * St)
  (owner repository workflow_filename github_token : string) (w : World St)
  (response : Response) (s' : St) :
  Py.startswith workflow_filename "pages-build-deployment" = false →
  Py.startswith workflow_filename "dependabot" = false →
  handle (server w) (enable_request owner repository workflow_filename github_token)
  = (Responded response, s') →
  400 ≤ status_code response < 600 →
  let sent := {| server := s';
                 trace := trace w ++ [Sent (enable_request owner repository workflow_filename
                                              github_token)] |} in
  let fails_with (error_message : string) :=
    let result := enable_error repository workflow_filename error_message in
    enable_workflow handle owner repository workflow_filename github_token w
    = (Raises (RuntimeError result), record (Logged ERROR result) sent) in
  (∀ fields message,
     json response = Some (JObj fields) → assoc "message" fields = Some message →
     fails_with (py_str message))
  ∧ (∀ fields,
       json response = Some (JObj fields) → assoc "message" fields = None →
       fails_with "Error")
  ∧ (json response = None →
     fails_with (if Py.truthy (text response) then text response
                 else if Py.truthy (reason response) then reason response
                 else "Error")).
Proof.
  intros Hpages Hbot Hh Hstatus sent fails_with. unfold fails_with.
  rewrite (enable_workflow_run handle _ _ _ _ w Hpages Hbot). cbv zeta.
  rewrite Hh. apply is_error_status_spec in Hstatus. rewrite Hstatus.
  fold sent. repeat split.
  - intros fields message -> Hm. by rewrite Hm.
  - intros fields -> Hm. by rewrite Hm.
  - intros ->. reflexivity.
Qed.

(** On the example server: a 404 with GitHub's document, a 403 with an
    empty object, and a 502 whose body is a web page. *)
Lemma enable_failure_message_witness :
  fst (enable_workflow Example.github "alice" "lib_y" "broken.yml" "t" Example.start)
  = Raises (RuntimeError "ERROR enabling repository lib_y, workflow broken.yml: Not Found")
  ∧ fst (enable_workflow Example.github "carol" "mirror" "bare.yml" "t" Example.start)
    = Raises (RuntimeError "ERROR enabling repository mirror, workflow bare.yml: Error")
  ∧ fst (enable_workflow Example.github "carol" "mirror" "html.yml" "t" Example.start)
    = Raises (RuntimeError
                "ERROR enabling repository mirror, workflow html.yml: <html>Bad Gateway</html>").
Proof.
  split; [|split].
  - destruct (enable_failure_message Example.github "alice" "lib_y" "broken.yml" "t"
                Example.start Example.not_found ()) as (H & _ & _);
      [reflexivity|reflexivity|reflexivity|simpl; lia|].
    by rewrite (H [("message", JStr "Not Found")] (JStr "Not Found") eq_refl eq_refl).
  - destruct (enable_failure_message Example.github "carol" "mirror" "bare.yml" "t"
                Example.start (Example.document 403 "Forbidden" (JObj []) None) ())
      as (_ & H & _); [reflexivity|reflexivity|reflexivity|simpl; lia|].
    by rewrite (H [] eq_refl eq_refl).
  - destruct (enable_failure_message Example.github "carol" "mirror" "html.yml" "t"
                Example.start (Example.plain 502 "Bad Gateway" "<html>Bad Gateway</html>") ())
      as (_ & _ & H); [reflexivity|reflexivity|reflexivity|simpl; lia|].
    by rewrite (H eq_refl).
Defined.

(** C7 as stated fails in three places.  A 304 is a status outside 2xx, and
    the workflow counts as enabled: no failure is reported.  A 404 whose
    body parses as JSON but is a list, with no [message] field, does not
    fall back to [Error]: [AttributeError] escapes.  A 500 with no JSON, no
    text and no reason reports [Error], which is neither text nor reason. *)
Lemma enable_failure_message_counterexample :
  (Example.github () (enable_request "carol" "mirror" "ci.yml" "t")
   = (Responded (Example.plain 304 "Not Modified" EmptyString), ())
   ∧ ¬ (200 ≤ 304 < 300)
   ∧ enable_workflow Example.github "carol" "mirror" "ci.yml" "t" Example.start
     = (Returns "Enabled repository mirror, workflow ci.yml",
        {| server := ();
           trace := [Sent (enable_request "carol" "mirror" "ci.yml" "t");
                     Logged INFO "Enabled repository mirror, workflow ci.yml"] |}))
  ∧ (Example.github () (enable_request "carol" "mirror" "list.yml" "t")
     = (Responded (Example.document 404 "Not Found" (JArr []) None), ())
     ∧ json (Example.document 404 "Not Found" (JArr []) None) = Some (JArr [])
     ∧ fst (enable_workflow Example.github "carol" "mirror" "list.yml" "t" Example.start)
       = Raises AttributeError)
  ∧ (Example.github () (enable_request "carol" "mirror" "empty.yml" "t")
     = (Responded (Example.plain 500 EmptyString EmptyString), ())
     ∧ fst (enable_workflow Example.github "carol" "mirror" "empty.yml" "t" Example.start)
       = Raises (RuntimeError "ERROR enabling repository mirror, workflow empty.yml: Error")).
Proof.
  repeat split; try (vm_compute; reflexivity). lia.
Qed.

(** The older module differs on both counts: it sends the request for a
    Dependabot workflow, and a failure whose body is no JSON escapes its
    handler as [JSONDecodeError]. *)
Remark legacy_enable_workflow :
  requests_of
    (trace (snd (Legacy.enable_workflow Example.github "alice" "lib_x"
                   "dependabot-updates.yml" "t" Example.start)))
  = [{| method := PUT; url := enable_url "alice" "lib_x" "dependabot-updates.yml";
        headers := enable_headers "t"; timeout := None |}]
  ∧ fst (Legacy.enable_workflow Example.github "carol" "mirror" "html.yml" "t" Example.start)
    = Raises JSONDecodeError.
Proof. split; vm_compute; reflexivity. Qed.

(** ** Loops *)

Section Loops.

Context {St : Type}.

Lemma print_run (line : string) (w : World St) :
  print line w = (Returns (), record (Printed line) w).
Proof. reflexivity. Qed.

Lemma for_each_nil {A} (body : A → M St unit) w : for_each [] body w = (Returns (), w).
Proof. reflexivity. Qed.

Lemma for_each_cons {A} (body : A → M St unit) x rest w :
  for_each (x :: rest) body w
  = match body x w with
    | (Returns _, w') => for_each rest body w'
    | (Raises exc, w') => (Raises exc, w')
    | (OutOfFuel, w') => (OutOfFuel, w')
    | (Unmodelled, w') => (Unmodelled, w')
    end.
Proof. reflexivity. Qed.

(** A loop over [before ++ x :: after] whose body raises at [x] stops
    there: the exception leaves the loop, and the world is the one the body
    left at [x]. *)
Lemma for_each_raises {A} (body : A → M St unit) before x after w w1 exc w2 :
  for_each before body w = (Returns (), w1) →
  body x w1 = (Raises exc, w2) →
  for_each (before ++ x :: after) body w = (Raises exc, w2).
Proof.
  revert w. induction before as [|y before IH]; intros w Hbefore Hx.
  - injection Hbefore as <-. change ([] ++ x :: after) with (x :: after).
    by rewrite for_each_cons, Hx.
  - rewrite <-app_comm_cons, for_each_cons. rewrite for_each_cons in Hbefore.
    destruct (body y w) as [[[]|?| |] wy]; try done. by apply IH.
Qed.

End Loops.

Section Pruner.

Context {St : Type} (handle : St → Request → Reply * St).

(** What [delete_workflow_run] does: one request, a line logged for a 204
    and for a failed transport, and an exception for the latter only. *)
Lemma delete_workflow_run_run owner repository github_token run_id (w : World St) :
  let request := delete_request owner repository github_token run_id in
  delete_workflow_run handle owner repository github_token run_id w
  = match handle (server w) request with
    | (Responded response, s') =>
        let sent := {| server := s'; trace := trace w ++ [Sent request] |} in
        if decide (status_code response = 204)
        then (Returns (), record (Logged INFO (deleted owner repository run_id)) sent)
        else (Returns (), sent)
    | (Failed f, s') =>
        let sent := {| server := s'; trace := trace w ++ [Sent request] |} in
        let result := delete_error owner repository run_id
                        (exception_str (transport_exception f)) in
        (Raises (RuntimeError result), record (Logged ERROR result) sent)
    end.
Proof.
  intros request. unfold delete_workflow_run.
  destruct (handle (server w) request) as [[response|f] s'] eqn:Hh.
  - case_decide; apply try_returns;
      (erewrite bind_returns; [|eapply send_responded, Hh]); by case_decide.
  - erewrite try_caught; cycle 1.
    + apply bind_raises. eapply send_failed, Hh.
    + by destruct f.
    + reflexivity.
Qed.

Lemma remove_run_requests owner repository github_token run_id (w : World St) :
  ∃ outcome w',
    remove_run handle owner github_token repository run_id w = (outcome, w')
    ∧ requests_of (trace w')
      = requests_of (trace w) ++ [delete_request owner repository github_token run_id]
    ∧ (outcome = Returns () ∨ ∃ exc, outcome = Raises exc)
    ∧ ((∃ response s', handle (server w) (delete_request owner repository github_token run_id)
                       = (Responded response, s')) → outcome = Returns ()).
Proof.
  unfold remove_run, print, emit. unfold mbind at 1, M_bind at 1.
  rewrite delete_workflow_run_run. cbv zeta. simpl server. simpl trace.
  destruct (handle (server w) _) as [[response|f] s'].
  - case_decide; eexists _, _; (split; [reflexivity|]); simpl;
      rewrite ?requests_of_logged, requests_of_sent, requests_of_printed; eauto.
  - eexists _, _. split; [reflexivity|]. simpl.
    rewrite requests_of_logged, requests_of_sent, requests_of_printed.
    split; [done|]. split; [eauto|]. by intros (? & ? & [=]).
Qed.

(** The loop over the deletion set sends its DELETE requests in the order of
    the set, one per run, up to the first that fails in transport. *)
Lemma remove_runs_requests owner repository github_token (to_delete : list string)
  (w : World St) :
  ∃ outcome w' n,
    for_each to_delete (remove_run handle owner github_token repository) w = (outcome, w')
    ∧ requests_of (trace w')
      = requests_of (trace w)
          ++ (delete_request owner repository github_token <$> take n to_delete)
    ∧ (outcome = Returns () → n = length to_delete)
    ∧ ((∀ s run_id, run_id ∈ to_delete →
          ∃ response s', handle s (delete_request owner repository github_token run_id)
                         = (Responded response, s')) →
       outcome = Returns ()).
Proof.
  revert w. induction to_delete as [|run_id rest IH]; intros w.
  - exists (Returns ()), w, 0%nat. simpl. by rewrite app_nil_r.
  - rewrite for_each_cons.
    destruct (remove_run_requests owner repository github_token run_id w)
      as (outcome & w1 & -> & Hsent & Hkind & Hanswered).
    destruct Hkind as [->|[exc ->]].
    + destruct (IH w1) as (outcome' & w' & n & -> & Hsent' & Hall & Hanswered').
      exists outcome', w', (S n). split; [done|]. split.
      { rewrite Hsent', Hsent. simpl. by rewrite <-app_assoc. }
      split; [intros H; simpl; by rewrite (Hall H)|].
      intros H. apply Hanswered'. intros s id Hid. apply H. by right.
    + exists (Raises exc), w1, 1%nat. split; [done|]. split.
      { rewrite Hsent. reflexivity. }
      split; [done|]. intros H. exfalso.
      specialize (Hanswered (H _ run_id ltac:(left))). done.
Qed.

(** The text of an integer is its decimal numeral. *)
Lemma py_str_integers (ids : list Z) : py_str <$> (JInt <$> ids) = pretty <$> ids.
Proof. by rewrite <-list_fmap_compose. Qed.

Lemma integers_JInt (ids : list Z) : integers (JInt <$> ids) = Some ids.
Proof.
  unfold integers. induction ids as [|id ids IH]; [done|].
  rewrite fmap_cons. cbn [mapM]. rewrite IH. done.
Qed.

(** On identifiers that are integers the deletion set is the one of
    [workflow_run_ids_to_delete]. *)
Lemma deletion_set_integers (keep : Z) (ids : list Z) :
  deletion_set keep (JInt <$> ids) = Returns (JInt <$> workflow_run_ids_to_delete keep ids).
Proof. unfold deletion_set. by rewrite integers_JInt. Qed.

(** The turn of a repository whose runs are listed with integer
    identifiers: the count is logged and the loop runs over the deletion
    set. *)
Lemma prune_repository_integers fuel owner github_token keep repository (w w1 : World St)
  (ids : list Z) :
  get_workflow_runs handle fuel owner repository github_token w = (Returns (JInt <$> ids), w1) →
  prune_repository handle fuel owner github_token keep repository w
  = for_each (pretty <$> workflow_run_ids_to_delete keep ids)
      (remove_run handle owner github_token repository)
      (record (Logged INFO (to_delete_line repository (length ids)
                              (length (workflow_run_ids_to_delete keep ids)))) w1).
Proof.
  intros Hruns. unfold prune_repository.
  erewrite bind_returns; [|exact Hruns].
  erewrite bind_returns; [|unfold lift; by rewrite deletion_set_integers].
  erewrite bind_returns; [|reflexivity].
  by rewrite py_str_integers, !length_fmap.
Qed.

(** A loop over [before ++ x :: after] whose body returns on [before]: the
    turn of [x], then the turns of [after]. *)
Lemma for_each_reaches {A} (body : A → M St unit) before x after (w w1 : World St) :
  for_each before body w = (Returns (), w1) →
  for_each (before ++ x :: after) body w = (body x;; for_each after body) w1.
Proof.
  revert w. induction before as [|y before IH]; intros w Hbefore.
  - by injection Hbefore as <-.
  - rewrite <-app_comm_cons, for_each_cons. rewrite for_each_cons in Hbefore.
    destruct (body y w) as [[[]|?| |] wy]; try done. by apply IH.
Qed.

End Pruner.

(** C3.  In [delete_old_workflow_runs], at a repository whose runs
    [get_workflow_runs] lists with the identifiers [ids], and for a
    retention count [keep] that is not negative: the sweep keeps the
    [min(keep, len)] largest identifiers and deletes the other
    [max(0, len - keep)]; these are the smallest identifiers, none larger
    than a kept one.  With [keep = 0] every run is deleted; with fewer than
    [keep] runs none is.  The turn of the repository, [prune_repository],
    sends after the listing the DELETE requests of the deletion set and no
    other request, largest identifier first, up to the first that fails in
    transport, and all of them when each is answered.  And the sweep, at a
    repository it has reached, goes on as that turn followed by the turns
    of the repositories after it. *)
Theorem pruning_retention {St} (handle : St → Request → Reply * St) (fuel : nat)
  (owner github_token repository : string) (keep : Z) (ids : list Z) (w w1 : World St) :
  0 ≤ keep →
  get_workflow_runs handle fuel owner repository github_token w = (Returns (JInt <$> ids), w1) →
  let to_delete := workflow_run_ids_to_delete keep ids in
  let retained := take (Z.to_nat keep) (Py.sorted_reverse ids) in
  Z.of_nat (length retained) = Z.min keep (Z.of_nat (length ids))
  ∧ Z.of_nat (length to_delete) = Z.max 0 (Z.of_nat (length ids) - keep)
  ∧ retained ++ to_delete ≡ₚ ids
  ∧ to_delete = reverse (take (length ids - Z.to_nat keep) (Py.sorted ids))
  ∧ (∀ kept deleted, kept ∈ retained → deleted ∈ to_delete → deleted ≤ kept)
  ∧ StronglySorted Z.ge to_delete
  ∧ (keep = 0 → to_delete ≡ₚ ids)
  ∧ (Z.of_nat (length ids) < keep → to_delete = [])
  ∧ (∃ outcome w' n,
       prune_repository handle fuel owner github_token keep repository w = (outcome, w')
       ∧ requests_of (trace w')
         = requests_of (trace w1)
             ++ (delete_request owner repository github_token
                   <$> (pretty <$> take n to_delete))
       ∧ (outcome = Returns () → n = length to_delete)
       ∧ ((∀ s run_id, run_id ∈ to_delete →
             ∃ response s',
               handle s (delete_request owner repository github_token (pretty run_id))
               = (Responded response, s')) →
          outcome = Returns ()))
  ∧ ∀ (start listed : World St) (repositories : list JSON) (before after : list string),
      get_repositories handle fuel owner github_token
        (record (Printed (removing_line owner keep)) start)
      = (Returns repositories, listed) →
      py_str <$> repositories = before ++ repository :: after →
      for_each before (prune_repository handle fuel owner github_token keep) listed
      = (Returns (), w) →
      delete_old_workflow_runs handle fuel owner github_token keep start
      = (prune_repository handle fuel owner github_token keep repository;;
         for_each after (prune_repository handle fuel owner github_token keep)) w.
Proof.
  intros Hkeep Hruns to_delete retained.
  assert (Hdrop : to_delete = drop (Z.to_nat keep) (Py.sorted_reverse ids)).
  { unfold to_delete, workflow_run_ids_to_delete. by rewrite slice_from_nonneg. }
  assert (Hsplit : retained ++ to_delete = Py.sorted_reverse ids).
  { rewrite Hdrop. apply take_drop. }
  pose proof (sorted_reverse_StronglySorted ids) as Hsorted.
  rewrite <-Hsplit in Hsorted. apply StronglySorted_app in Hsorted as (Hle & _ & Hsorted).
  split; [|split; [|split; [|split; [|split; [|split; [|split; [|split; [|split]]]]]]]].
  - unfold retained. rewrite length_take, length_sorted_reverse. lia.
  - rewrite Hdrop, length_drop, length_sorted_reverse. lia.
  - rewrite Hsplit. apply sorted_reverse_Permutation.
  - by apply to_delete_nonneg.
  - intros kept deleted Hkept Hdeleted. specialize (Hle _ _ Hkept Hdeleted). lia.
  - exact Hsorted.
  - intros ->. rewrite Hdrop. simpl. rewrite drop_0. apply sorted_reverse_Permutation.
  - intros Hfew. rewrite Hdrop. apply drop_ge. rewrite length_sorted_reverse. lia.
  - rewrite (prune_repository_integers handle fuel owner github_token keep repository w w1 ids
               Hruns).
    fold to_delete.
    destruct (remove_runs_requests handle owner repository github_token (pretty <$> to_delete)
                (record (Logged INFO (to_delete_line repository (length ids)
                                        (length to_delete))) w1))
      as (outcome & w' & n & Hrun & Hsent & Hall & Hanswered).
    exists outcome, w', n. split; [exact Hrun|]. split; [|split].
    + rewrite Hsent. cbn [record trace]. by rewrite requests_of_logged, <-fmap_take.
    + intros Hreturns. rewrite (Hall Hreturns). apply length_fmap.
    + intros Hserver. apply Hanswered. intros s run_id Hin.
      apply list_elem_of_fmap in Hin as (id & -> & Hid). by apply Hserver.
  - intros start listed repositories before after Hrepos Hnames Hbefore.
    unfold delete_old_workflow_runs.
    erewrite bind_returns; [|apply print_run].
    erewrite bind_returns; [|exact Hrepos].
    rewrite Hnames. by apply for_each_reaches.
Qed.

(** The second scenario of the specification: a repository with the runs 1
    to 73, of which 50 are kept.  Its turn sends the DELETE requests for
    23, 22, ..., 1, in that order, after the GET of the listing; and the
    sweep for the owner, who has this one repository, sends these after the
    GET of the repositories. *)
Lemma pruning_retention_witness :
  workflow_run_ids_to_delete 50 (seqZ 1 73) = reverse (seqZ 1 23)
  ∧ (∃ w', prune_repository Scenario.busy 10 "frank" "t" 50 "big" Example.start
           = (Returns (), w')
           ∧ requests_of (trace w')
             = get_request (runs_url "frank" "big") "t"
               :: (delete_request "frank" "big" "t" <$> (pretty <$> reverse (seqZ 1 23))))
  ∧ requests_of (trace (delete_old_workflow_runs Scenario.busy 10 "frank" "t" 50
                          Example.start).2)
    = get_request (repositories_url "frank") "t"
      :: get_request (runs_url "frank" "big") "t"
      :: (delete_request "frank" "big" "t" <$> (pretty <$> reverse (seqZ 1 23))).
Proof.
  assert (H50 : 0 ≤ 50) by lia.
  pose (w1 := (get_workflow_runs Scenario.busy 10 "frank" "big" "t" Example.start).2).
  assert (Hruns : get_workflow_runs Scenario.busy 10 "frank" "big" "t" Example.start
                  = (Returns (JInt <$> seqZ 1 73), w1)) by (vm_compute; reflexivity).
  destruct (pruning_retention Scenario.busy 10 "frank" "t" "big" 50 (seqZ 1 73)
              Example.start w1 H50 Hruns)
    as (_ & _ & _ & Hset & _ & _ & _ & _ & (outcome & w' & n & Hrun & Hsent & Hall & Hanswered)
        & _).
  assert (Hset' : workflow_run_ids_to_delete 50 (seqZ 1 73) = reverse (seqZ 1 23))
    by (rewrite Hset; reflexivity).
  split; [exact Hset'|]. split.
  - assert (Hreturns : outcome = Returns ()).
    { apply Hanswered. intros [] run_id Hin. eexists _, _. reflexivity. }
    exists w'. rewrite Hrun, Hreturns. split; [reflexivity|].
    rewrite Hsent, (Hall Hreturns), firstn_all, Hset'. reflexivity.
  - pose (listed := (get_repositories Scenario.busy 10 "frank" "t"
                       (record (Printed (removing_line "frank" 50)) Example.start)).2).
    assert (Hlisted : get_workflow_runs Scenario.busy 10 "frank" "big" "t" listed
                      = (Returns (JInt <$> seqZ 1 73),
                         (get_workflow_runs Scenario.busy 10 "frank" "big" "t" listed).2))
      by (vm_compute; reflexivity).
    destruct (pruning_retention Scenario.busy 10 "frank" "t" "big" 50 (seqZ 1 73)
                listed _ H50 Hlisted) as (_ & _ & _ & _ & _ & _ & _ & _ & _ & Hsweep).
    rewrite (Hsweep Example.start listed [JStr "big"] [] []);
      vm_compute; reflexivity.
Defined.

(** C9, amended.  A negative retention count [-k] makes the deletion set the
    [min(k, len)] smallest identifiers, largest first: never more than
    [keep = 0] deletes, and all the runs exactly when there are no more than
    [k] of them. *)
Theorem negative_keep (k : Z) (ids : list Z) :
  1 ≤ k →
  let to_delete := workflow_run_ids_to_delete (- k) ids in
  to_delete = reverse (take (Z.to_nat (Z.min k (Z.of_nat (length ids)))) (Py.sorted ids))
  ∧ Z.of_nat (length to_delete) = Z.min k (Z.of_nat (length ids))
  ∧ (length to_delete ≤ length (workflow_run_ids_to_delete 0 ids))%nat
  ∧ (to_delete ≡ₚ ids ↔ Z.of_nat (length ids) ≤ k).
Proof.
  intros Hk to_delete.
  assert (Hset : to_delete = reverse (take (min (Z.to_nat k) (length ids)) (Py.sorted ids))).
  { unfold to_delete. rewrite <-(Z2Nat.id k) at 1 by lia. apply to_delete_neg. lia. }
  assert (Hlen : length to_delete = min (Z.to_nat k) (length ids)).
  { rewrite Hset, length_reverse, length_take, length_sorted. lia. }
  split; [|split; [|split]].
  - rewrite Hset. do 2 f_equal. lia.
  - rewrite Hlen. lia.
  - rewrite Hlen. unfold workflow_run_ids_to_delete.
    rewrite slice_from_nonneg by lia. simpl. rewrite drop_0, length_sorted_reverse. lia.
  - split.
    + intros Hperm. apply Permutation_length in Hperm. lia.
    + intros Hall. rewrite Hset, Nat.min_r by lia.
      rewrite take_ge by (rewrite length_sorted; lia).
      rewrite reverse_Permutation. apply merge_sort_Permutation.
Qed.

Lemma negative_keep_witness :
  1 ≤ 2 ∧ workflow_run_ids_to_delete (- 2) [30; 10; 40; 20] = [20; 10].
Proof.
  assert (H : 1 ≤ 2) by lia. split; [exact H|].
  destruct (negative_keep 2 [30; 10; 40; 20] H) as (-> & _). reflexivity.
Defined.

(** C9 as stated says that a negative count never deletes all runs.  With
    [keep = -1] and a single run, and with [keep = -5] and three runs, the
    deletion set is every run there is. *)
Lemma negative_keep_counterexample :
  workflow_run_ids_to_delete (- 1) [7] = [7]
  ∧ workflow_run_ids_to_delete (- 5) [3; 1; 2] = [3; 2; 1]
  ∧ workflow_run_ids_to_delete (- 5) [3; 1; 2] = workflow_run_ids_to_delete 0 [3; 1; 2].
Proof. repeat split; vm_compute; reflexivity. Qed.

(** ** The sweeps *)

Section Sweeps.

Context {St : Type} (handle : St → Request → Reply * St).

Lemma activate_workflow_raises owner github_token repository workflow_filename
  (w : World St) exc w' :
  enable_workflow handle owner repository workflow_filename github_token
    (record (Printed (activate_line repository workflow_filename)) w) = (Raises exc, w') →
  activate_workflow handle owner github_token repository workflow_filename w = (Raises exc, w').
Proof.
  intros H. unfold activate_workflow.
  erewrite bind_returns; [|apply print_run]. by apply bind_raises.
Qed.

Lemma remove_run_raises owner github_token repository run_id (w : World St) exc w' :
  delete_workflow_run handle owner repository github_token run_id
    (record (Printed (remove_line repository run_id)) w) = (Raises exc, w') →
  remove_run handle owner github_token repository run_id w = (Raises exc, w').
Proof.
  intros H. unfold remove_run. by erewrite bind_returns; [|apply print_run].
Qed.

(** C1, amended.  A failure of the per-item action is not caught by the
    sweep.  When [enable_workflow] raises at a workflow that
    [enable_all_workflows] has reached, or [delete_workflow_run] raises at a
    run that [delete_old_workflow_runs] has reached, the sweep raises the
    same exception and ends in the world the failing call left: nothing is
    sent for the workflows, runs and repositories that come after. *)
Theorem sweep_stops_at_first_failure (fuel : nat) (owner github_token : string) :
  (∀ (w w1 w2 w3 w4 w5 : World St) (repositories : list JSON)
     (repos_before repos_after : list string) (repository : string)
     (before after : list string) (workflow_filename : string) (exc : Exception),
     get_repositories handle fuel owner github_token
       (record (Printed (activating_line owner)) w)
     = (Returns repositories, w1) →
     py_str <$> repositories = repos_before ++ repository :: repos_after →
     for_each repos_before (activate_repository handle fuel owner github_token) w1
     = (Returns (), w2) →
     get_workflows handle fuel owner repository github_token w2
     = (Returns (before ++ workflow_filename :: after), w3) →
     for_each before (activate_workflow handle owner github_token repository) w3
     = (Returns (), w4) →
     enable_workflow handle owner repository workflow_filename github_token
       (record (Printed (activate_line repository workflow_filename)) w4)
     = (Raises exc, w5) →
     enable_all_workflows handle fuel owner github_token w = (Raises exc, w5))
  ∧ (∀ (keep : Z) (w w1 w2 w3 w4 w5 : World St) (repositories : list JSON)
       (repos_before repos_after : list string) (repository : string)
       (workflow_run_ids to_delete : list JSON) (before after : list string)
       (run_id : string) (exc : Exception),
       get_repositories handle fuel owner github_token
         (record (Printed (removing_line owner keep)) w)
       = (Returns repositories, w1) →
       py_str <$> repositories = repos_before ++ repository :: repos_after →
       for_each repos_before (prune_repository handle fuel owner github_token keep) w1
       = (Returns (), w2) →
       get_workflow_runs handle fuel owner repository github_token w2
       = (Returns workflow_run_ids, w3) →
       deletion_set keep workflow_run_ids = Returns to_delete →
       py_str <$> to_delete = before ++ run_id :: after →
       for_each before (remove_run handle owner github_token repository)
         (record (Logged INFO (to_delete_line repository (length workflow_run_ids)
                                 (length to_delete))) w3)
       = (Returns (), w4) →
       delete_workflow_run handle owner repository github_token run_id
         (record (Printed (remove_line repository run_id)) w4)
       = (Raises exc, w5) →
       delete_old_workflow_runs handle fuel owner github_token keep w = (Raises exc, w5)).
Proof.
  split.
  - intros w w1 w2 w3 w4 w5 repositories repos_before repos_after repository before after
      workflow_filename exc Hrepos Hnames Hbefore Hworkflows Hdone Hraise.
    unfold enable_all_workflows.
    erewrite bind_returns; [|apply print_run].
    erewrite bind_returns; [|exact Hrepos].
    rewrite Hnames. eapply for_each_raises; [exact Hbefore|].
    unfold activate_repository. erewrite bind_returns; [|exact Hworkflows].
    eapply for_each_raises; [exact Hdone|].
    by apply activate_workflow_raises.
  - intros keep w w1 w2 w3 w4 w5 repositories repos_before repos_after repository
      workflow_run_ids to_delete before after run_id exc
      Hrepos Hnames Hbefore Hruns Hset Htexts Hdone Hraise.
    unfold delete_old_workflow_runs.
    erewrite bind_returns; [|apply print_run].
    erewrite bind_returns; [|exact Hrepos].
    rewrite Hnames. eapply for_each_raises; [exact Hbefore|].
    unfold prune_repository. erewrite bind_returns; [|exact Hruns].
    erewrite bind_returns; [|unfold lift; by rewrite Hset].
    erewrite bind_returns; [|reflexivity].
    rewrite Htexts. eapply for_each_raises; [exact Hdone|].
    by apply remove_run_raises.
Qed.

End Sweeps.

(** On the example server the enabling sweep fails at [broken.yml] of
    [lib_y], the second repository, and the pruning sweep at run 2 of
    [lib_x], whose DELETE is cut by the transport. *)
Lemma sweep_stops_at_first_failure_witness :
  fst (enable_all_workflows Example.github 10 "alice" "t" Example.start)
  = Raises (RuntimeError "ERROR enabling repository lib_y, workflow broken.yml: Not Found")
  ∧ fst (delete_old_workflow_runs Example.github 10 "alice" "t" 1 Example.start)
    = Raises (RuntimeError
                "ERROR deleting workflow run ID: 2 for user: alice, repository: lib_x: Connection aborted.").
Proof.
  destruct (sweep_stops_at_first_failure Example.github 10 "alice" "t") as [Henable Hprune].
  split.
  - pose (w1 := snd (get_repositories Example.github 10 "alice" "t"
                       (record (Printed (activating_line "alice")) Example.start))).
    pose (w2 := snd (for_each ["lib_x"]
                       (activate_repository Example.github 10 "alice" "t") w1)).
    pose (w3 := snd (get_workflows Example.github 10 "alice" "lib_y" "t" w2)).
    pose (w5 := snd (enable_workflow Example.github "alice" "lib_y" "broken.yml" "t"
                       (record (Printed (activate_line "lib_y" "broken.yml")) w3))).
    rewrite (Henable Example.start w1 w2 w3 w3 w5 [JStr "lib_x"; JStr "lib_y"; JStr "lib_z"]
               ["lib_x"] ["lib_z"] "lib_y" [] ["later.yml"] "broken.yml"
               (RuntimeError "ERROR enabling repository lib_y, workflow broken.yml: Not Found"));
      [reflexivity|vm_compute; reflexivity..].
  - pose (w1 := snd (get_repositories Example.github 10 "alice" "t"
                       (record (Printed (removing_line "alice" 1)) Example.start))).
    pose (w3 := snd (get_workflow_runs Example.github 10 "alice" "lib_x" "t" w1)).
    pose (w4 := record (Logged INFO (to_delete_line "lib_x" 3 2)) w3).
    pose (w5 := snd (delete_workflow_run Example.github "alice" "lib_x" "t" "2"
                       (record (Printed (remove_line "lib_x" "2")) w4))).
    rewrite (Hprune 1 Example.start w1 w1 w3 w4 w5 [JStr "lib_x"; JStr "lib_y"; JStr "lib_z"]
               [] ["lib_y"; "lib_z"] "lib_x"
               [JInt 3; JInt 1; JInt 2] [JInt 2; JInt 1] [] ["1"] "2"
               (RuntimeError
                  "ERROR deleting workflow run ID: 2 for user: alice, repository: lib_x: Connection aborted."));
      [reflexivity|vm_compute; reflexivity..].
Defined.

(** C1 as stated fails on the example server.  The enable request for
    [broken.yml] is answered 404, and the sweep ends there: [later.yml], listed
    after it in the same repository, and [lib_z], listed after [lib_y], get no
    request.  The DELETE of run 2 fails in transport, and the pruning sweep
    ends there: run 1 of the deletion set is not deleted and the runs of
    [lib_y] are never listed. *)
Lemma sweep_stops_at_first_failure_counterexample :
  fst (get_repositories Example.github 10 "alice" "t" Example.start)
  = Returns [JStr "lib_x"; JStr "lib_y"; JStr "lib_z"]
  ∧ fst (get_workflows Example.github 10 "alice" "lib_y" "t" Example.start)
    = Returns ["broken.yml"; "later.yml"]
  ∧ fst (enable_all_workflows Example.github 10 "alice" "t" Example.start)
    = Raises (RuntimeError "ERROR enabling repository lib_y, workflow broken.yml: Not Found")
  ∧ requests_of (trace (snd (enable_all_workflows Example.github 10 "alice" "t" Example.start)))
    = [get_request (repositories_url "alice") "t";
       get_request Example.page_2 "t";
       get_request (workflows_url "alice" "lib_x") "t";
       enable_request "alice" "lib_x" "ci.yml" "t";
       get_request (workflows_url "alice" "lib_y") "t";
       enable_request "alice" "lib_y" "broken.yml" "t"]
  ∧ fst (get_workflow_runs Example.github 10 "alice" "lib_x" "t" Example.start)
    = Returns [JInt 3; JInt 1; JInt 2]
  ∧ workflow_run_ids_to_delete 1 [3; 1; 2] = [2; 1]
  ∧ fst (delete_old_workflow_runs Example.github 10 "alice" "t" 1 Example.start)
    = Raises (RuntimeError
                "ERROR deleting workflow run ID: 2 for user: alice, repository: lib_x: Connection aborted.")
  ∧ requests_of
      (trace (snd (delete_old_workflow_runs Example.github 10 "alice" "t" 1 Example.start)))
    = [get_request (repositories_url "alice") "t";
       get_request Example.page_2 "t";
       get_request (runs_url "alice" "lib_x") "t";
       delete_request "alice" "lib_x" "t" "2"].
Proof. repeat split; vm_compute; reflexivity. Qed.

(** ** Deleting one run *)

Section Deleting.

Context {St : Type} (handle : St → Request → Reply * St).

(** A 204 is logged as a deletion. *)
Lemma delete_workflow_run_deleted owner repository github_token run_id (w : World St)
  response s' :
  handle (server w) (delete_request owner repository github_token run_id)
  = (Responded response, s') →
  status_code response = 204 →
  delete_workflow_run handle owner repository github_token run_id w
  = (Returns (),
     {| server := s';
        trace := trace w ++ [Sent (delete_request owner repository github_token run_id);
                             Logged INFO (deleted owner repository run_id)] |}).
Proof.
  intros Hh H204. rewrite delete_workflow_run_run. cbv zeta. rewrite Hh.
  case_decide; [|done]. unfold record. simpl. by rewrite <-app_assoc.
Qed.

(** A failed transport is logged and raised, with the owner, the
    repository, the run and the cause in the message. *)
Lemma delete_workflow_run_transport owner repository github_token run_id (w : World St)
  f s' :
  handle (server w) (delete_request owner repository github_token run_id) = (Failed f, s') →
  let result := delete_error owner repository run_id (exception_str (transport_exception f)) in
  delete_workflow_run handle owner repository github_token run_id w
  = (Raises (RuntimeError result),
     {| server := s';
        trace := trace w ++ [Sent (delete_request owner repository github_token run_id);
                             Logged ERROR result] |}).
Proof.
  intros Hh result. rewrite delete_workflow_run_run. cbv zeta. rewrite Hh.
  unfold record. simpl. by rewrite <-app_assoc.
Qed.

(** Any other status passes in silence: the function returns, and neither
    logs nor raises. *)
Lemma delete_workflow_run_other_status owner repository github_token run_id (w : World St)
  response s' :
  handle (server w) (delete_request owner repository github_token run_id)
  = (Responded response, s') →
  status_code response ≠ 204 →
  delete_workflow_run handle owner repository github_token run_id w
  = (Returns (),
     {| server := s';
        trace := trace w ++ [Sent (delete_request owner repository github_token run_id)] |}).
Proof.
  intros Hh H204. rewrite delete_workflow_run_run. cbv zeta. rewrite Hh.
  by case_decide.
Qed.

End Deleting.

(** C6, at the failing input.  The example server answers the DELETE of run
    12 of [lib_y] with 404 and GitHub's [Not Found] document.  The claim
    asks for a failure that carries owner, repository, run and cause;
    [delete_workflow_run] returns as if nothing had happened, with the
    request as its only trace: no line logged, nothing raised. *)
Theorem delete_workflow_run_ignores_404 :
  Example.github () (delete_request "alice" "lib_y" "t" "12")
  = (Responded Example.not_found, ())
  ∧ status_code Example.not_found = 404
  ∧ delete_workflow_run Example.github "alice" "lib_y" "t" "12" Example.start
    = (Returns (),
       {| server := (); trace := [Sent (delete_request "alice" "lib_y" "t" "12")] |}).
Proof. repeat split; vm_compute; reflexivity. Qed.

(** ** The listings *)

Lemma requests_of_gets {A} (f : A → Request) (l : list A) :
  requests_of ((λ x, Sent (f x)) <$> l) = f <$> l.
Proof.
  induction l as [|x l IH]; [done|].
  rewrite !fmap_cons. cbn [requests_of omap list_omap]. f_equal. exact IH.
Qed.

Section Listings.

Context {St : Type} (handle : St → Request → Reply * St).
Context {A : Type} (extract : JSON → Outcome (list A)) (describe : string → string).
Context (github_token : string).

Lemma page_items_returns (response : Response) (found : list A) :
  page_items extract response = Returns found →
  raise_for_status response = Returns ()
  ∧ ∃ data, response_json response = Returns data ∧ extract data = Returns found.
Proof.
  unfold page_items, mbind, Outcome_bind.
  destruct (raise_for_status response) as [[]| | |]; [|done..].
  destruct (response_json response) as [data| | |]; [|done..]. eauto.
Qed.

(** One turn of the loop on a page that carries items. *)
Lemma listing_step_page (u : string) (items : list A) (w : World St) response s1 found :
  handle (server w) (get_request u github_token) = (Responded response, s1) →
  page_items extract response = Returns found →
  listing_step handle extract describe github_token u items w
  = (Returns (items ++ found, next_link response),
     {| server := s1; trace := trace w ++ [Sent (get_request u github_token)] |}).
Proof.
  intros Hh Hitems. apply page_items_returns in Hitems as (Hstatus & data & Hjson & Hfound).
  unfold listing_step. apply try_returns.
  erewrite bind_returns; [|eapply (send_responded handle (get_request u github_token)), Hh].
  unfold lift, mbind, M_bind. by rewrite Hstatus, Hjson, Hfound.
Qed.

(** One turn of the loop on a page answered with a 4xx or 5xx status: the
    handler reads the message from a JSON object and raises [RuntimeError];
    another body makes the handler itself fail. *)
Lemma listing_step_error (u : string) (items : list A) (w : World St) response s1 :
  handle (server w) (get_request u github_token) = (Responded response, s1) →
  400 ≤ status_code response < 600 →
  let sent := {| server := s1; trace := trace w ++ [Sent (get_request u github_token)] |} in
  listing_step handle extract describe github_token u items w
  = match json response with
    | Some (JObj fields) =>
        let result := describe (py_str (default (JStr "Error") (assoc "message" fields))) in
        (Raises (RuntimeError result), record (Logged ERROR result) sent)
    | Some _ => (Raises AttributeError, sent)
    | None => (Raises JSONDecodeError, sent)
    end.
Proof.
  intros Hh Hstatus sent. apply is_error_status_spec in Hstatus.
  destruct (raise_for_status_error _ Hstatus) as [message Hraise].
  unfold listing_step. erewrite try_caught; cycle 1.
  - erewrite bind_returns;
      [|eapply (send_responded handle (get_request u github_token)), Hh].
    apply bind_raises. unfold lift. by rewrite Hraise.
  - reflexivity.
  - fold sent. unfold mbind, M_bind, lift, response_json.
    destruct (json response) as [[]|]; reflexivity.
Qed.

(** The loop follows the pages the server serves. *)
Lemma while_url_reads (fuel : nat) (s : St) (url : option string)
  (pages : list (string * Response)) (s' : St) (next : option string) :
  reads handle github_token s url pages s' next →
  Forall (λ page, ∃ found, page_items extract page.2 = Returns found) pages →
  ∀ (items : list A) (t : list Event),
    (length pages ≤ fuel)%nat →
    while_url fuel (listing_step handle extract describe github_token) url items
      {| server := s; trace := t |}
    = while_url (fuel - length pages) (listing_step handle extract describe github_token)
        next (items ++ concat ((λ page, items_of (page_items extract page.2)) <$> pages))
        {| server := s';
           trace := t ++ ((λ page, Sent (get_request page.1 github_token)) <$> pages) |}.
Proof.
  intros Hreads. revert fuel.
  induction Hreads as [s next|s u response s1 pages s' next Htruthy Hh Hreads IH];
    intros fuel Hpages items t Hfuel.
  - simpl. by rewrite Nat.sub_0_r, !app_nil_r.
  - apply Forall_cons in Hpages as [[found Hfound] Hpages].
    destruct fuel as [|fuel]; [simpl in Hfuel; lia|].
    simpl while_url at 1. rewrite Htruthy.
    erewrite bind_returns; [|by eapply listing_step_page].
    simpl fst. simpl snd. rewrite IH by (done || simpl in Hfuel; lia).
    simpl in Hfound. cbn [fmap list_fmap concat length fst snd Nat.sub].
    rewrite Hfound. cbn [items_of]. by rewrite <-!app_assoc.
Qed.

Lemma while_url_stop {B} (fuel : nat) (body : string → B → M St (B * option string))
  (next : option string) (acc : B) (w : World St) :
  Py.truthy_opt next = false → while_url fuel body next acc w = (Returns acc, w).
Proof.
  intros Hnext. destruct next as [u|]; [|by destruct fuel].
  simpl in Hnext. destruct fuel; simpl; by rewrite Hnext.
Qed.

(** A listing: the loop from [first_url], then the line that reports the
    count. *)
Local Abbreviation listing first_url finish fuel :=
  (found ← while_url fuel (listing_step handle extract describe github_token)
             (Some first_url) [];
   logger_info (finish found);;
   mret found).

Lemma listing_returns (first_url : string) (finish : list A → string) (fuel : nat)
  (w : World St) (pages : list (string * Response)) (s' : St) (next : option string) :
  reads handle github_token (server w) (Some first_url) pages s' next →
  Forall (λ page, ∃ found, page_items extract page.2 = Returns found) pages →
  (length pages ≤ fuel)%nat →
  Py.truthy_opt next = false →
  let found := concat ((λ page, items_of (page_items extract page.2)) <$> pages) in
  listing first_url finish fuel w
  = (Returns found,
     {| server := s';
        trace := trace w ++ ((λ page, Sent (get_request page.1 github_token)) <$> pages)
                   ++ [Logged INFO (finish found)] |}).
Proof.
  intros Hreads Hpages Hfuel Hnext found. destruct w as [s t].
  erewrite bind_returns.
  2:{ erewrite while_url_reads by done. by apply while_url_stop. }
  unfold mbind, M_bind, logger_info, emit, record, mret, M_ret. simpl.
  by rewrite <-app_assoc.
Qed.

Lemma listing_raises (first_url : string) (finish : list A → string) (fuel : nat)
  (w : World St) (pages : list (string * Response)) (s' : St) (u : string)
  (response : Response) (s'' : St) :
  reads handle github_token (server w) (Some first_url) pages s' (Some u) →
  Forall (λ page, ∃ found, page_items extract page.2 = Returns found) pages →
  (length pages < fuel)%nat →
  Py.truthy u = true →
  handle s' (get_request u github_token) = (Responded response, s'') →
  400 ≤ status_code response < 600 →
  let sent :=
    {| server := s'';
       trace := trace w ++ ((λ page, Sent (get_request page.1 github_token)) <$> pages)
                  ++ [Sent (get_request u github_token)] |} in
  listing first_url finish fuel w
  = match json response with
    | Some (JObj fields) =>
        let result := describe (py_str (default (JStr "Error") (assoc "message" fields))) in
        (Raises (RuntimeError result), record (Logged ERROR result) sent)
    | Some _ => (Raises AttributeError, sent)
    | None => (Raises JSONDecodeError, sent)
    end.
Proof.
  intros Hreads Hpages Hfuel Htruthy Hh Hstatus sent. destruct w as [s t].
  assert (Hstep := listing_step_error u
            (concat ((λ page, items_of (page_items extract page.2)) <$> pages))
            {| server := s';
               trace := t ++ ((λ page, Sent (get_request page.1 github_token)) <$> pages) |}
            response s'' Hh Hstatus).
  cbv zeta in Hstep. simpl trace in Hstep. rewrite <-app_assoc in Hstep.
  destruct (json response) as [[]|] eqn:Hjson;
    (erewrite bind_raises; [reflexivity|]);
    (erewrite while_url_reads by (done || lia));
    (destruct (fuel - length pages)%nat as [|fuel'] eqn:Hrest; [lia|]);
    simpl while_url; rewrite Htruthy;
    (erewrite bind_raises; [reflexivity|]); exact Hstep.
Qed.

(** A listing returns all pages or none. *)
Lemma listing_all_or_nothing (first_url : string) (finish : list A → string) :
  all_or_nothing handle github_token (λ fuel, listing first_url finish fuel) first_url extract.
Proof.
  intros fuel w pages s' next Hreads Hpages Hfuel. split.
  - intros Hnext. eexists. split; [|split; [|split]].
    + eapply listing_returns; [done|done|lia|done].
    + reflexivity.
    + cbn [trace]. rewrite !requests_of_app, requests_of_gets.
      cbn [requests_of omap list_omap]. by rewrite app_nil_r.
    + rewrite length_concat, <-list_fmap_compose. reflexivity.
  - intros u response s'' -> Htruthy Hh Hstatus.
    rewrite (listing_raises first_url finish fuel w pages s' u response s'') by done.
    destruct (json response) as [[]|]; eauto.
Qed.

End Listings.

(** C2, amended.  Each of the three listings returns all pages or none.
    After pages that carry items, each naming the next: when the last names
    no further page, the listing returns the items of the pages, in page
    order, having sent one GET per page; when the next page is answered with
    a 4xx or 5xx status, the listing raises and returns no item, whatever
    the pages before it held. *)
Theorem listings_are_all_or_nothing {St} (handle : St → Request → Reply * St)
  (owner repository github_token : string) :
  all_or_nothing handle github_token
    (λ fuel, get_repositories handle fuel owner github_token)
    (repositories_url owner) repository_names
  ∧ all_or_nothing handle github_token
      (λ fuel, get_workflows handle fuel owner repository github_token)
      (workflows_url owner repository) workflow_filenames
  ∧ all_or_nothing handle github_token
      (λ fuel, get_workflow_runs handle fuel owner repository github_token)
      (runs_url owner repository) run_ids.
Proof.
  split; [|split].
  - exact (listing_all_or_nothing handle repository_names (repositories_error owner)
             github_token (repositories_url owner) _).
  - exact (listing_all_or_nothing handle workflow_filenames
             (workflows_error owner repository) github_token
             (workflows_url owner repository) _).
  - exact (listing_all_or_nothing handle run_ids (runs_error owner repository)
             github_token (runs_url owner repository) _).
Qed.


(** The two pages of alice's repositories, and the failing second page of
    dave's. *)
Lemma listings_are_all_or_nothing_witness :
  (∃ w', get_repositories Example.github 10 "alice" "t" Example.start
         = (Returns [JStr "lib_x"; JStr "lib_y"; JStr "lib_z"], w')
         ∧ requests_of (trace w')
           = [get_request (repositories_url "alice") "t"; get_request Example.page_2 "t"])
  ∧ (∃ exc w', get_repositories Example.github 10 "dave" "t" Example.start = (Raises exc, w')).
Proof.
  split.
  - destruct (listings_are_all_or_nothing Example.github "alice" "lib_x" "t") as (Hrepos & _).
    destruct (Hrepos 10%nat Example.start
                [(repositories_url "alice",
                  Example.document 200 "OK" (JArr [Example.named "lib_x"])
                    (Some Example.page_2));
                 (Example.page_2,
                  Example.document 200 "OK"
                    (JArr [Example.named "lib_y"; Example.named "lib_z"]) None)]
                () None) as [Hall _].
    + eapply reads_page; [reflexivity|reflexivity|].
      eapply (reads_page Example.github "t" () Example.page_2); [reflexivity|reflexivity|].
      apply reads_done.
    + repeat constructor; eexists; reflexivity.
    + simpl. lia.
    + destruct (Hall eq_refl) as (w' & Hrun & _ & Hsent & _).
      exists w'. split; [exact Hrun|exact Hsent].
  - destruct (listings_are_all_or_nothing Example.github "dave" "lib_x" "t") as (Hrepos & _).
    destruct (Hrepos 10%nat Example.start
                [(repositories_url "dave",
                  Example.document 200 "OK"
                    (JArr [Example.named "one"; Example.named "two"])
                    (Some Example.dave_page_2))]
                () (Some Example.dave_page_2)) as [_ Hnone].
    + eapply reads_page; [reflexivity|reflexivity|]. apply reads_done.
    + repeat constructor; eexists; reflexivity.
    + simpl. lia.
    + apply (Hnone Example.dave_page_2
               (Example.document 500 "Internal Server Error"
                  (JObj [("message", JStr "Server Error")]) None) ());
        [reflexivity|reflexivity|reflexivity|simpl; lia].
Defined.

(** C2 as stated fails for a status outside 2xx that is no error to
    [raise_for_status].  The example server answers the listing of carol's
    repositories with 300 and a document; the listing returns the names in
    it and signals nothing. *)
Lemma listings_are_all_or_nothing_counterexample :
  Example.github () (get_request (repositories_url "carol") "t")
  = (Responded (Example.document 300 "Multiple Choices" (JArr [Example.named "mirror"]) None),
     ())
  ∧ ¬ (200 ≤ 300 < 300)
  ∧ fst (get_repositories Example.github 10 "carol" "t" Example.start)
    = Returns [JStr "mirror"].
Proof. split; [|split]; [vm_compute; reflexivity|lia|vm_compute; reflexivity]. Qed.



(** ** Configuration *)

Section Configuration.

Context (env : Env).



(** The three places a [.env] file is looked for, in the order tried. *)
Local Abbreviation well_known :=
  [resolve env (path_join (cwd env) ".env");
   resolve env (path_join (script_dir env) ".env");
   resolve env (path_join (parent (script_dir env)) ".env")].


(** A file that is read gives a mapping; one that cannot be read, the
    exception. *)
Lemma read_env_file_lines (path : Path) (lines : list string) :
  read_lines env path = Lines lines →
  _read_env_file env path = Returns (fold_left read_env_line lines ∅).
Proof. intros H. unfold _read_env_file. by rewrite H. Qed.

Lemma read_env_file_unreadable (path : Path) (exc : Exception) :
  read_lines env path = Unreadable exc → _read_env_file env path = Raises exc.
Proof. intros H. unfold _read_env_file. by rewrite H. Qed.

(** [env_file] is read and has no value for [key] that is not empty. *)
Local Abbreviation without_value key env_file :=
  (∃ config, _read_env_file env env_file = Returns config
             ∧ Py.truthy_opt (config !! key) = false).







End Configuration.







(** ** The trace only grows *)

Section Appends.

Context {St : Type} (ok : Event → Prop).

Lemma appends_ret {A} (a : A) : appends ok (mret a : M St A).
Proof. intros w. exists []. by rewrite app_nil_r. Qed.

Lemma appends_raise {A} exc : appends ok (raise exc : M St A).
Proof. intros w. exists []. by rewrite app_nil_r. Qed.

Lemma appends_out_of_fuel {A} : appends ok (out_of_fuel : M St A).
Proof. intros w. exists []. by rewrite app_nil_r. Qed.

Lemma appends_lift {A} (o : Outcome A) : appends ok (lift o : M St A).
Proof. intros w. exists []. by rewrite app_nil_r. Qed.

Lemma appends_emit ev : ok ev → appends ok (emit ev : M St unit).
Proof. intros Hev w. exists [ev]. split; [done|]. by constructor. Qed.

Lemma appends_bind {A B} (m : M St A) (k : A → M St B) :
  appends ok m → (∀ a, appends ok (k a)) → appends ok (m ≫= k).
Proof.
  intros Hm Hk w. destruct (Hm w) as (extra & Htrace & Hok).
  unfold mbind, M_bind. destruct (m w) as [[a|exc| |] w1]; simpl in *.
  - destruct (Hk a w1) as (extra' & Htrace' & Hok').
    exists (extra ++ extra'). rewrite Htrace', Htrace, app_assoc.
    split; [done|]. by apply Forall_app.
  - by exists extra.
  - by exists extra.
  - by exists extra.
Qed.

Lemma appends_try {A} (m : M St A) (handler : Exception → option (M St A)) :
  appends ok m →
  (∀ exc recover, handler exc = Some recover → appends ok recover) →
  appends ok (try_except m handler).
Proof.
  intros Hm Hhandler w. destruct (Hm w) as (extra & Htrace & Hok).
  unfold try_except.
  destruct (m w) as [[a|exc| |] w1]; simpl in *; [by exists extra| |by exists extra..].
  destruct (handler exc) as [recover|] eqn:Hcaught; [|by exists extra].
  destruct (Hhandler exc recover Hcaught w1) as (extra' & Htrace' & Hok').
  exists (extra ++ extra'). rewrite Htrace', Htrace, app_assoc.
  split; [done|]. by apply Forall_app.
Qed.

Lemma appends_for_each {A} (l : list A) (body : A → M St unit) :
  (∀ x, appends ok (body x)) → appends ok (for_each l body).
Proof.
  intros Hbody. induction l as [|x l IH]; [apply appends_ret|].
  simpl. apply appends_bind; [apply Hbody|]. intros _. exact IH.
Qed.

Lemma appends_while_url {A} (fuel : nat) (body : string → A → M St (A * option string))
  (url : option string) (acc : A) :
  (∀ u items, appends ok (body u items)) → appends ok (while_url fuel body url acc).
Proof.
  intros Hbody. revert url acc.
  induction fuel as [|fuel IH]; intros [u|] acc; simpl; try apply appends_ret.
  - destruct (Py.truthy u); [apply appends_out_of_fuel|apply appends_ret].
  - destruct (Py.truthy u); [|apply appends_ret].
    apply appends_bind; [apply Hbody|]. intros next. apply IH.
Qed.

Lemma appends_send (handle : St → Request → Reply * St) (r : Request) :
  ok (Sent r) → appends ok (send handle r).
Proof.
  intros Hr w. exists [Sent r]. unfold send.
  destruct (handle (server w) r) as [[response|f] s']; simpl; (split; [done|]);
    by constructor.
Qed.

End Appends.

Section Authorized.

Context {St : Type} (handle : St → Request → Reply * St) (github_token : string).

Lemma appends_weaken {A} (ok ok' : Event → Prop) (m : M St A) :
  (∀ ev, ok ev → ok' ev) → appends ok m → appends ok' m.
Proof.
  intros Himpl Hm w. destruct (Hm w) as (extra & Htrace & Hok).
  exists extra. split; [done|]. by eapply Forall_impl.
Qed.

Lemma sweep_event_allowed (allowed allowed' : list Method) (ev : Event) :
  allowed ⊆ allowed' →
  sweep_event github_token allowed ev → sweep_event github_token allowed' ev.
Proof. intros Hsub. destruct ev; simpl; [|done..]. intros [? ?]. split; [done|]. by apply Hsub. Qed.

Ltac appends_go :=
  repeat first
    [ apply appends_ret | apply appends_raise | apply appends_lift
    | apply appends_out_of_fuel
    | apply appends_emit; exact I
    | apply appends_bind; [|intros ?] ].

Lemma appends_listing_error {A} ok (describe : string → string) exc (recover : M St A) :
  (∀ level line, ok (Logged level line)) →
  listing_error describe exc = Some recover → appends ok recover.
Proof.
  intros Hlog. destruct exc as [[r|] ?| | | | | | | | | | |]; simpl; intros [= <-].
  - repeat first [ apply appends_raise | apply appends_lift
                 | apply appends_bind; [|intros ?] ].
    apply appends_emit, Hlog.
  - apply appends_raise.
Qed.

Lemma appends_listing_step {A} (extract : JSON → Outcome (list A))
  (describe : string → string) (u : string) (items : list A) :
  appends (sweep_event github_token [GET])
    (listing_step handle extract describe github_token u items).
Proof.
  unfold listing_step. apply appends_try.
  - apply appends_bind.
    + apply appends_send. simpl. split; [done|]. set_solver.
    + intros response. appends_go.
  - intros exc recover. by apply appends_listing_error.
Qed.

Lemma appends_get_repositories fuel owner :
  appends (sweep_event github_token [GET])
    (get_repositories handle fuel owner github_token).
Proof.
  unfold get_repositories. apply appends_bind.
  - apply appends_while_url. intros u items.
    apply (appends_listing_step repository_names (repositories_error owner)).
  - intros repositories. appends_go.
Qed.

Lemma appends_get_workflows fuel owner repository :
  appends (sweep_event github_token [GET])
    (get_workflows handle fuel owner repository github_token).
Proof.
  unfold get_workflows. apply appends_bind.
  - apply appends_while_url. intros u items.
    apply (appends_listing_step workflow_filenames (workflows_error owner repository)).
  - intros workflows. appends_go.
Qed.

Lemma appends_get_workflow_runs fuel owner repository :
  appends (sweep_event github_token [GET])
    (get_workflow_runs handle fuel owner repository github_token).
Proof.
  unfold get_workflow_runs. apply appends_bind.
  - apply appends_while_url. intros u items.
    apply (appends_listing_step run_ids (runs_error owner repository)).
  - intros ids. appends_go.
Qed.

Lemma appends_enable_handler {A} repository workflow_filename response exc
  (recover : M St A) :
  enable_handler repository workflow_filename response exc = Some recover →
  appends (sweep_event github_token [PUT]) recover.
Proof.
  destruct exc as [exc_response ?| | | | | | | | | | |]; simpl; intros [= <-].
  apply appends_bind.
  - destruct exc_response as [r|]; [|destruct response as [r|]]; try apply appends_ret.
    all: unfold enable_error_message; apply appends_try; [appends_go|].
    all: intros inner recover'; destruct (is_ValueError inner); intros [= <-];
      apply appends_ret.
  - intros error_message. appends_go.
Qed.

Lemma appends_enable_workflow owner repository workflow_filename :
  appends (sweep_event github_token [PUT])
    (enable_workflow handle owner repository workflow_filename github_token).
Proof.
  unfold enable_workflow.
  destruct (Py.startswith workflow_filename "pages-build-deployment"); [apply appends_ret|].
  destruct (Py.startswith workflow_filename "dependabot"); [apply appends_ret|].
  apply appends_bind.
  - apply appends_try.
    + apply appends_send. simpl. split; [done|]. set_solver.
    + intros exc recover. apply appends_enable_handler.
  - intros response. apply appends_try; [appends_go|].
    intros exc recover. apply appends_enable_handler.
Qed.

Lemma appends_delete_workflow_run owner repository run_id :
  appends (sweep_event github_token [DELETE])
    (delete_workflow_run handle owner repository github_token run_id).
Proof.
  unfold delete_workflow_run. apply appends_try.
  - apply appends_bind.
    + apply appends_send. simpl. split; [done|]. set_solver.
    + intros response. case_decide; appends_go.
  - intros exc recover. destruct (is_RequestException exc); intros [= <-]. appends_go.
Qed.

End Authorized.

Lemma requests_of_Forall (ok : Request → Prop) (extra : list Event) :
  Forall (λ ev, match ev with Sent r => ok r | _ => True end) extra →
  ∀ r, r ∈ requests_of extra → ok r.
Proof.
  induction 1 as [|ev extra Hev _ IH]; intros r Hr; [by apply elem_of_nil in Hr|].
  destruct ev; simpl in Hr; [|by apply IH..].
  apply elem_of_cons in Hr as [->|Hr]; [done|by apply IH].
Qed.

(** X1.  The three listings only read.  Whatever the server answers, each
    request a listing sends is a GET that carries the token, the media type
    and the thirty-second timeout, and the listing leaves the earlier trace
    in place. *)
Theorem listings_only_read {St} (handle : St → Request → Reply * St)
  (fuel : nat) (owner repository github_token : string) (w : World St) :
  let reads_only {A} (listing : M St (list A)) :=
    ∃ extra, trace (listing w).2 = trace w ++ extra
             ∧ ∀ r, r ∈ requests_of extra → authorized github_token r ∧ method r = GET in
  reads_only (get_repositories handle fuel owner github_token)
  ∧ reads_only (get_workflows handle fuel owner repository github_token)
  ∧ reads_only (get_workflow_runs handle fuel owner repository github_token).
Proof.
  assert (Hget : ∀ A (listing : M St (list A)),
            appends (sweep_event github_token [GET]) listing →
            ∃ extra, trace (listing w).2 = trace w ++ extra
                     ∧ ∀ r, r ∈ requests_of extra
                            → authorized github_token r ∧ method r = GET).
  { intros A listing Hlisting. destruct (Hlisting w) as (extra & Htrace & Hok).
    exists extra. split; [done|]. apply requests_of_Forall.
    eapply Forall_impl; [exact Hok|]. intros [r| |]; simpl; [|done..].
    intros [? Hm]. split; [done|]. by apply list_elem_of_singleton in Hm. }
  cbv zeta. split; [|split]; apply Hget.
  - apply appends_get_repositories.
  - apply appends_get_workflows.
  - apply appends_get_workflow_runs.
Qed.

Section SweepRequests.

Context {St : Type} (handle : St → Request → Reply * St) (github_token : string).

Lemma appends_enable_all_workflows fuel owner :
  appends (sweep_event github_token [GET; PUT])
    (enable_all_workflows handle fuel owner github_token).
Proof.
  unfold enable_all_workflows. apply appends_bind; [by apply appends_emit|]. intros _.
  apply appends_bind.
  { eapply appends_weaken; [|apply appends_get_repositories].
    intros ev. apply sweep_event_allowed. set_solver. }
  intros repositories. apply appends_for_each. intros repository.
  unfold activate_repository. apply appends_bind.
  { eapply appends_weaken; [|apply appends_get_workflows].
    intros ev. apply sweep_event_allowed. set_solver. }
  intros workflows. apply appends_for_each. intros workflow_filename.
  unfold activate_workflow. apply appends_bind; [by apply appends_emit|]. intros _.
  apply appends_bind; [|intros _; apply appends_ret].
  eapply appends_weaken; [|apply appends_enable_workflow].
  intros ev. apply sweep_event_allowed. set_solver.
Qed.

Lemma appends_delete_old_workflow_runs fuel owner keep :
  appends (sweep_event github_token [GET; DELETE])
    (delete_old_workflow_runs handle fuel owner github_token keep).
Proof.
  unfold delete_old_workflow_runs. apply appends_bind; [by apply appends_emit|]. intros _.
  apply appends_bind.
  { eapply appends_weaken; [|apply appends_get_repositories].
    intros ev. apply sweep_event_allowed. set_solver. }
  intros repositories. apply appends_for_each. intros repository.
  unfold prune_repository. apply appends_bind.
  { eapply appends_weaken; [|apply appends_get_workflow_runs].
    intros ev. apply sweep_event_allowed. set_solver. }
  intros ids. apply appends_bind; [apply appends_lift|]. intros to_delete.
  apply appends_bind; [by apply appends_emit|]. intros _.
  apply appends_for_each. intros run_id.
  unfold remove_run. apply appends_bind; [by apply appends_emit|]. intros _.
  eapply appends_weaken; [|apply appends_delete_workflow_run].
  intros ev. apply sweep_event_allowed. set_solver.
Qed.

End SweepRequests.

(** X2.  What the sweeps send.  Whatever the server answers, every request of
    [enable_all_workflows] is a GET or a PUT, every request of
    [delete_old_workflow_runs] a GET or a DELETE; each carries the token, the
    media type and the thirty-second timeout; and the earlier trace stays in
    place.  The enabling sweep deletes nothing, and the pruning sweep enables
    nothing. *)
Theorem sweeps_send_only_their_requests {St} (handle : St → Request → Reply * St)
  (fuel : nat) (owner github_token : string) (keep : Z) (w : World St) :
  (∃ extra, trace (enable_all_workflows handle fuel owner github_token w).2 = trace w ++ extra
            ∧ ∀ r, r ∈ requests_of extra
                   → authorized github_token r ∧ (method r = GET ∨ method r = PUT))
  ∧ (∃ extra, trace (delete_old_workflow_runs handle fuel owner github_token keep w).2
              = trace w ++ extra
              ∧ ∀ r, r ∈ requests_of extra
                     → authorized github_token r ∧ (method r = GET ∨ method r = DELETE)).
Proof.
  split.
  - destruct (appends_enable_all_workflows handle github_token fuel owner w)
      as (extra & Htrace & Hok).
    exists extra. split; [done|]. apply requests_of_Forall.
    eapply Forall_impl; [exact Hok|]. intros [r| |]; simpl; [|done..].
    intros [? Hm]. split; [done|]. set_solver.
  - destruct (appends_delete_old_workflow_runs handle github_token fuel owner keep w)
      as (extra & Htrace & Hok).
    exists extra. split; [done|]. apply requests_of_Forall.
    eapply Forall_impl; [exact Hok|]. intros [r| |]; simpl; [|done..].
    intros [? Hm]. split; [done|]. set_solver.
Qed.

(** X3.  [main] does not prune after a failed enabling sweep.  With both
    credentials resolved, when [enable_all_workflows] raises, [main] raises
    the same exception in the same world: the pruning sweep is not started,
    and no DELETE has been sent. *)
Theorem main_stops_after_failed_enabling {St} (handle : St → Request → Reply * St)
  (env : Env) (fuel : nat) (owner github_token : string) (w w' : World St)
  (exc : Exception) :
  get_owner env = Returns owner →
  get_github_token env = Returns github_token →
  enable_all_workflows handle fuel owner github_token w = (Raises exc, w') →
  main handle env fuel w = (Raises exc, w')
  ∧ ∃ extra, trace w' = trace w ++ extra ∧ ∀ r, r ∈ requests_of extra → method r ≠ DELETE.
Proof.
  intros Howner Htoken Hraise. split.
  - unfold main.
    erewrite bind_returns; [|unfold lift; by rewrite Howner].
    erewrite bind_returns; [|unfold lift; by rewrite Htoken].
    by apply bind_raises.
  - destruct (appends_enable_all_workflows handle github_token fuel owner w)
      as (extra & Htrace & Hok).
    rewrite Hraise in Htrace. exists extra. split; [done|].
    intros r Hr Hdelete.
    apply (requests_of_Forall (λ r, method r ≠ DELETE) extra) in Hr; [done|].
    eapply Forall_impl; [exact Hok|]. intros [r'| |]; simpl; [|done..].
    intros [_ Hm] Hd. rewrite Hd in Hm. set_solver.
Qed.

Lemma main_stops_after_failed_enabling_witness :
  main Example.github Example.from_file 10 Example.start
  = (Raises (RuntimeError "ERROR enabling repository lib_y, workflow broken.yml: Not Found"),
     (enable_all_workflows Example.github 10 "alice" "t" Example.start).2).
Proof.
  apply (main_stops_after_failed_enabling Example.github Example.from_file 10 "alice" "t");
    vm_compute; reflexivity.
Defined.

(** ** Pages that stop a listing *)

Section Stops.

Context {St : Type} (handle : St → Request → Reply * St).
Context {A : Type} (extract : JSON → Outcome (list A)) (describe : string → string).
Context (github_token : string).

Local Abbreviation listing first_url finish fuel :=
  (found ← while_url fuel (listing_step handle extract describe github_token)
             (Some first_url) [];
   logger_info (finish found);;
   mret found).

(** A turn of the loop that raises ends the listing with what it raised. *)
Lemma listing_stops (first_url : string) (finish : list A → string) (fuel : nat)
  (w : World St) (pages : list (string * Response)) (s' : St) (u : string)
  (exc : Exception) (w' : World St) :
  reads handle github_token (server w) (Some first_url) pages s' (Some u) →
  Forall (λ page, ∃ found, page_items extract page.2 = Returns found) pages →
  (length pages < fuel)%nat →
  Py.truthy u = true →
  listing_step handle extract describe github_token u
    (concat ((λ page, items_of (page_items extract page.2)) <$> pages))
    {| server := s';
       trace := trace w ++ ((λ page, Sent (get_request page.1 github_token)) <$> pages) |}
  = (Raises exc, w') →
  listing first_url finish fuel w = (Raises exc, w').
Proof.
  intros Hreads Hpages Hfuel Htruthy Hstep. destruct w as [s t].
  apply bind_raises. erewrite while_url_reads by (done || lia).
  destruct (fuel - length pages)%nat as [|fuel'] eqn:Hrest; [lia|].
  simpl while_url. rewrite Htruthy. by apply bind_raises.
Qed.

(** The transport fails: the exception of [requests] leaves the loop as it
    is. *)
Lemma listing_step_transport (u : string) (items : list A) (w : World St) f s1 :
  handle (server w) (get_request u github_token) = (Failed f, s1) →
  listing_step handle extract describe github_token u items w
  = (Raises (transport_exception f),
     {| server := s1; trace := trace w ++ [Sent (get_request u github_token)] |}).
Proof.
  intros Hh. unfold listing_step. apply try_uncaught.
  - apply bind_raises. eapply (send_failed handle (get_request u github_token)), Hh.
  - by destruct f.
Qed.

(** The page arrives with a good status and cannot be read: what the reading
    raises leaves the loop as it is, unless it is an [HTTPError]. *)
Lemma listing_step_unreadable (u : string) (items : list A) (w : World St) response s1 exc :
  handle (server w) (get_request u github_token) = (Responded response, s1) →
  page_items extract response = Raises exc →
  listing_error (A := list A * option string) (St := St) describe exc = None →
  listing_step handle extract describe github_token u items w
  = (Raises exc,
     {| server := s1; trace := trace w ++ [Sent (get_request u github_token)] |}).
Proof.
  intros Hh Hitems Hnot. unfold listing_step. apply try_uncaught; [|done].
  erewrite bind_returns; [|eapply (send_responded handle (get_request u github_token)), Hh].
  unfold page_items, mbind, Outcome_bind in Hitems.
  unfold mbind, M_bind, lift.
  destruct (raise_for_status response) as [[]|?| |]; [|by injection Hitems as <-|done..].
  destruct (response_json response) as [data|?| |]; [|by injection Hitems as <-|done..].
  by rewrite Hitems.
Qed.

End Stops.

Lemma comprehension_raises {B C} (P : Exception → Prop) (f : B → Outcome C) (l : list B) exc :
  (∀ x e, f x = Raises e → P e) → comprehension f l = Raises exc → P exc.
Proof.
  intros Hf. induction l as [|x l IH]; [done|]. simpl. unfold mbind, Outcome_bind.
  destruct (f x) as [y|e| |] eqn:Hx; [|intros [= <-]; by eapply Hf|done..].
  destruct (comprehension f l) as [ys|e| |]; [done|intros [= <-]; by apply IH|done..].
Qed.

(** A comprehension over objects that all have the field returns the values
    of the field, whatever they are. *)
Lemma comprehension_fields (key : string) (entries values : list JSON) :
  Forall2 (λ entry value, ∃ entry_fields, entry = JObj entry_fields
                                          ∧ assoc key entry_fields = Some value)
    entries values →
  comprehension (λ entry, subscript entry key) entries = Returns values.
Proof.
  induction 1 as [|entry value entries values (entry_fields & -> & Hfield) _ IH]; [done|].
  simpl. rewrite Hfield. simpl. rewrite IH. done.
Qed.

Lemma subscript_raises v key exc : subscript v key = Raises exc → reading_error exc.
Proof. destruct v as [| | | | |fields]; simpl; try by intros [= <-].
       destruct (assoc key fields); [done|by intros [= <-]]. Qed.

Lemma expect_str_raises v exc : expect_str v = Raises exc → reading_error exc.
Proof. destruct v; simpl; try done; by intros [= <-]. Qed.

Lemma iterate_raises v exc : iterate v = Raises exc → reading_error exc.
Proof. destruct v; simpl; try done; by intros [= <-]. Qed.

Lemma dict_get_raises v key dflt exc : dict_get v key dflt = Raises exc → reading_error exc.
Proof. destruct v; simpl; try done; by intros [= <-]. Qed.

Lemma repository_names_raises data exc :
  repository_names data = Raises exc → reading_error exc.
Proof.
  unfold repository_names, mbind, Outcome_bind.
  destruct (iterate data) as [repos|e| |] eqn:Hiter;
    [|intros [= <-]; by eapply iterate_raises|done..].
  apply comprehension_raises. intros repo e. apply subscript_raises.
Qed.

Lemma workflow_filenames_raises data exc :
  workflow_filenames data = Raises exc → reading_error exc.
Proof.
  unfold workflow_filenames, mbind, Outcome_bind.
  destruct (dict_get data "workflows" (JArr [])) as [listed|e| |] eqn:Hget;
    [|intros [= <-]; by eapply dict_get_raises|done..].
  destruct (iterate listed) as [entries|e| |] eqn:Hiter;
    [|intros [= <-]; by eapply iterate_raises|done..].
  apply comprehension_raises. intros workflow e.
  destruct (subscript workflow "path") as [path|e'| |] eqn:Hsub;
    [|intros [= <-]; by eapply subscript_raises|done..].
  destruct (expect_str path) as [p|e'| |] eqn:Hstr;
    [done|intros [= <-]; by eapply expect_str_raises|done..].
Qed.

Lemma run_ids_raises data exc : run_ids data = Raises exc → reading_error exc.
Proof.
  unfold run_ids, mbind, Outcome_bind.
  destruct (dict_get data "workflow_runs" (JArr [])) as [listed|e| |] eqn:Hget;
    [|intros [= <-]; by eapply dict_get_raises|done..].
  destruct (iterate listed) as [runs|e| |] eqn:Hiter;
    [|intros [= <-]; by eapply iterate_raises|done..].
  apply comprehension_raises. intros run e. apply subscript_raises.
Qed.

(** With a status that is no error, what reading a page raises is a reading
    error, if the extraction raises no other. *)
Lemma page_items_raises {A} (extract : JSON → Outcome (list A)) response exc :
  (∀ data e, extract data = Raises e → reading_error e) →
  ¬ (400 ≤ status_code response < 600) →
  page_items extract response = Raises exc → reading_error exc.
Proof.
  intros Hextract Hstatus. unfold page_items, mbind, Outcome_bind.
  rewrite raise_for_status_ok.
  2:{ destruct (is_error_status (status_code response)) eqn:Hs; [|done].
      by apply is_error_status_spec in Hs. }
  unfold response_json. destruct (json response) as [data|]; [apply Hextract|].
  by intros [= <-].
Qed.

Section EndsWith.

Context {St : Type} (handle : St → Request → Reply * St).
Context {A : Type} (extract : JSON → Outcome (list A)) (describe : string → string).
Context (github_token : string).

Local Abbreviation listing first_url finish :=
  (λ fuel, found ← while_url fuel (listing_step handle extract describe github_token)
                     (Some first_url) [];
           logger_info (finish found);;
           mret found).

Lemma listing_ends_with_transport first_url (finish : list A → string) f :
  ends_with handle github_token (listing first_url finish) first_url extract
    (Failed f) (transport_exception f).
Proof.
  intros fuel w pages s' u s'' Hreads Hpages Hfuel Htruthy Hh.
  eapply (listing_stops handle extract describe); [done..|].
  rewrite (listing_step_transport handle extract describe github_token u _ _ f s'') by done.
  simpl. by rewrite <-app_assoc.
Qed.

Lemma listing_ends_with_unreadable first_url (finish : list A → string) response exc :
  reading_error exc →
  page_items extract response = Raises exc →
  ends_with handle github_token (listing first_url finish) first_url extract
    (Responded response) exc.
Proof.
  intros Hexc Hitems fuel w pages s' u s'' Hreads Hpages Hfuel Htruthy Hh.
  eapply (listing_stops handle extract describe); [done..|].
  rewrite (listing_step_unreadable handle extract describe github_token u _ _ response s'' exc);
    [simpl; by rewrite <-app_assoc|done|done|].
  by destruct exc.
Qed.

Lemma listing_ends_with_error_body first_url (finish : list A → string) response :
  400 ≤ status_code response < 600 →
  (json response = None →
   ends_with handle github_token (listing first_url finish) first_url extract
     (Responded response) JSONDecodeError)
  ∧ (∀ body, json response = Some body → (∀ fields, body ≠ JObj fields) →
     ends_with handle github_token (listing first_url finish) first_url extract
       (Responded response) AttributeError).
Proof.
  intros Hstatus. split.
  - intros Hjson fuel w pages s' u s'' Hreads Hpages Hfuel Htruthy Hh.
    eapply (listing_stops handle extract describe); [done..|].
    rewrite (listing_step_error handle extract describe github_token u _ _ response s'')
      by done.
    rewrite Hjson. simpl. by rewrite <-app_assoc.
  - intros body Hjson Hbody fuel w pages s' u s'' Hreads Hpages Hfuel Htruthy Hh.
    eapply (listing_stops handle extract describe); [done..|].
    rewrite (listing_step_error handle extract describe github_token u _ _ response s'')
      by done.
    rewrite Hjson. destruct body; simpl; rewrite <-?app_assoc; try done.
    by destruct (Hbody fields).
Qed.

(** Pages without end: each turn of the loop finds a further page, and the
    fuel runs out whatever its amount. *)
Lemma while_url_endless (fuel : nat) (u : string) (items : list A) (w : World St) :
  (∀ s url, ∃ response s',
     handle s (get_request url github_token) = (Responded response, s')
     ∧ (∃ found, page_items extract response = Returns found)
     ∧ Py.truthy_opt (next_link response) = true) →
  Py.truthy u = true →
  (while_url fuel (listing_step handle extract describe github_token) (Some u) items w).1
  = OutOfFuel.
Proof.
  intros Hserver. revert u items w.
  induction fuel as [|fuel IH]; intros u items w Htruthy; simpl; rewrite Htruthy; [done|].
  destruct (Hserver (server w) u) as (response & s' & Hh & [found Hfound] & Hnext).
  erewrite bind_returns; [|by eapply listing_step_page].
  simpl. destruct (next_link response) as [u'|] eqn:Hlink; [|done].
  by apply IH.
Qed.

End EndsWith.

(** X4.  A failed transport is not wrapped.  After pages that carry items,
    when the request for the next page fails in transport, each listing
    raises the exception of [requests] as it is, not a [RuntimeError], and
    logs nothing; the items read so far are lost. *)
Theorem listing_transport_failure_is_not_wrapped {St} (handle : St → Request → Reply * St)
  (owner repository github_token : string) (f : TransportFailure) :
  ends_with handle github_token (λ fuel, get_repositories handle fuel owner github_token)
    (repositories_url owner) repository_names (Failed f) (transport_exception f)
  ∧ ends_with handle github_token
      (λ fuel, get_workflows handle fuel owner repository github_token)
      (workflows_url owner repository) workflow_filenames (Failed f) (transport_exception f)
  ∧ ends_with handle github_token
      (λ fuel, get_workflow_runs handle fuel owner repository github_token)
      (runs_url owner repository) run_ids (Failed f) (transport_exception f).
Proof.
  split; [|split].
  - exact (listing_ends_with_transport handle repository_names (repositories_error owner)
             github_token (repositories_url owner) _ f).
  - exact (listing_ends_with_transport handle workflow_filenames
             (workflows_error owner repository) github_token
             (workflows_url owner repository) _ f).
  - exact (listing_ends_with_transport handle run_ids (runs_error owner repository)
             github_token (runs_url owner repository) _ f).
Qed.

(** The second page of erin's repositories times out. *)
Lemma listing_transport_failure_is_not_wrapped_witness :
  get_repositories Scenario.cut 10 "erin" "t" Example.start
  = (Raises (Timeout "Read timed out. (read timeout=30)"),
     {| server := ();
        trace := [Sent (get_request (repositories_url "erin") "t");
                  Sent (get_request Scenario.page_2 "t")] |}).
Proof.
  destruct (listing_transport_failure_is_not_wrapped Scenario.cut "erin" "one" "t"
              (TimedOut "Read timed out. (read timeout=30)")) as (Hrepos & _).
  apply (Hrepos 10%nat Example.start
           [(repositories_url "erin",
             Example.document 200 "OK" (JArr [Example.named "one"]) (Some Scenario.page_2))]
           () Scenario.page_2 ()).
  - eapply reads_page; [reflexivity|reflexivity|]. apply reads_done.
  - repeat constructor; eexists; reflexivity.
  - simpl. lia.
  - reflexivity.
  - reflexivity.
Defined.

(** X5.  A page that cannot be read is not wrapped either.  When a page
    arrives with a status that is no error and reading it raises, each
    listing raises that bare exception, logs nothing, and returns no item.
    The exception is [JSONDecodeError] (the body is no JSON), [KeyError] (an
    entry is an object without the field read), [TypeError] (the entries
    cannot be iterated, an entry is no object, or the path of a workflow is
    no string) or [AttributeError] (the document of workflows or of runs is
    no object).  The type of a name or of a run identifier is not looked
    at: the listing takes the value as it is. *)
Theorem listing_unreadable_page_is_not_wrapped {St} (handle : St → Request → Reply * St)
  (owner repository github_token : string) (response : Response) (exc : Exception) :
  ¬ (400 ≤ status_code response < 600) →
  (page_items repository_names response = Raises exc →
   reading_error exc
   ∧ ends_with handle github_token (λ fuel, get_repositories handle fuel owner github_token)
       (repositories_url owner) repository_names (Responded response) exc)
  ∧ (page_items workflow_filenames response = Raises exc →
     reading_error exc
     ∧ ends_with handle github_token
         (λ fuel, get_workflows handle fuel owner repository github_token)
         (workflows_url owner repository) workflow_filenames (Responded response) exc)
  ∧ (page_items run_ids response = Raises exc →
     reading_error exc
     ∧ ends_with handle github_token
         (λ fuel, get_workflow_runs handle fuel owner repository github_token)
         (runs_url owner repository) run_ids (Responded response) exc)
  ∧ (∀ entries values,
       Forall2 (λ entry value, ∃ entry_fields, entry = JObj entry_fields
                                               ∧ assoc "name" entry_fields = Some value)
         entries values →
       repository_names (JArr entries) = Returns values)
  ∧ (∀ fields entries values,
       assoc "workflow_runs" fields = Some (JArr entries) →
       Forall2 (λ entry value, ∃ entry_fields, entry = JObj entry_fields
                                               ∧ assoc "id" entry_fields = Some value)
         entries values →
       run_ids (JObj fields) = Returns values).
Proof.
  intros Hstatus. split; [|split; [|split; [|split]]].
  - intros Hitems.
    assert (Hexc : reading_error exc)
      by (eapply page_items_raises; [apply repository_names_raises|done..]).
    split; [done|].
    exact (listing_ends_with_unreadable handle repository_names (repositories_error owner)
             github_token (repositories_url owner) _ response exc Hexc Hitems).
  - intros Hitems.
    assert (Hexc : reading_error exc)
      by (eapply page_items_raises; [apply workflow_filenames_raises|done..]).
    split; [done|].
    exact (listing_ends_with_unreadable handle workflow_filenames
             (workflows_error owner repository) github_token
             (workflows_url owner repository) _ response exc Hexc Hitems).
  - intros Hitems.
    assert (Hexc : reading_error exc)
      by (eapply page_items_raises; [apply run_ids_raises|done..]).
    split; [done|].
    exact (listing_ends_with_unreadable handle run_ids (runs_error owner repository)
             github_token (runs_url owner repository) _ response exc Hexc Hitems).
  - intros entries values Hnames.
    unfold repository_names. simpl. by apply comprehension_fields.
  - intros fields entries values Hruns Hids.
    unfold run_ids. simpl. rewrite Hruns. simpl. by apply comprehension_fields.
Qed.

(** A repository entry without a name; and a run whose identifier is a
    string, which is listed. *)
Lemma listing_unreadable_page_is_not_wrapped_witness :
  get_repositories Scenario.garbled 10 "nameless" "t" Example.start
  = (Raises (KeyError "name"),
     {| server := (); trace := [Sent (get_request (repositories_url "nameless") "t")] |})
  ∧ run_ids (JObj [("workflow_runs", JArr [JObj [("id", JStr "7")]])]) = Returns [JStr "7"].
Proof.
  destruct (listing_unreadable_page_is_not_wrapped Scenario.garbled "nameless" "one" "t"
              (Example.document 200 "OK"
                 (JArr [Example.named "one"; JObj [("id", JInt 7)]]) None)
              (KeyError "name")) as (Hrepos & _ & _ & _ & Hvalues); [simpl; lia|].
  split.
  - destruct (Hrepos eq_refl) as [_ Hends].
    apply (Hends 10%nat Example.start [] () (repositories_url "nameless") ()).
    + apply reads_done.
    + constructor.
    + simpl. lia.
    + reflexivity.
    + reflexivity.
  - apply (Hvalues _ [JObj [("id", JStr "7")]]); [reflexivity|].
    apply Forall2_cons_2; [by eexists|apply Forall2_nil_2].
Defined.

(** X6.  The handler of a listing can fail itself.  When a page is answered
    with a 4xx or 5xx status and its body is no JSON, the listing raises
    [JSONDecodeError]; when the body is JSON that is no object, it raises
    [AttributeError].  In both cases no [RuntimeError] is raised and no line
    is logged. *)
Theorem listing_error_body_unreadable {St} (handle : St → Request → Reply * St)
  (owner repository github_token : string) (response : Response) (exc : Exception) :
  400 ≤ status_code response < 600 →
  (json response = None ∧ exc = JSONDecodeError)
  ∨ (∃ body, json response = Some body ∧ (∀ fields, body ≠ JObj fields)
             ∧ exc = AttributeError) →
  ends_with handle github_token (λ fuel, get_repositories handle fuel owner github_token)
    (repositories_url owner) repository_names (Responded response) exc
  ∧ ends_with handle github_token
      (λ fuel, get_workflows handle fuel owner repository github_token)
      (workflows_url owner repository) workflow_filenames (Responded response) exc
  ∧ ends_with handle github_token
      (λ fuel, get_workflow_runs handle fuel owner repository github_token)
      (runs_url owner repository) run_ids (Responded response) exc.
Proof.
  intros Hstatus Hbody.
  pose proof (listing_ends_with_error_body handle repository_names
                (repositories_error owner) github_token (repositories_url owner)
                (λ repositories, "Found " +:+ pretty (length repositories)
                                   +:+ " repositories for user " +:+ owner)
                response Hstatus) as [Hrepos1 Hrepos2].
  pose proof (listing_ends_with_error_body handle workflow_filenames
                (workflows_error owner repository) github_token
                (workflows_url owner repository)
                (λ workflows, "Found " +:+ pretty (length workflows)
                                +:+ " workflows for user: " +:+ owner
                                +:+ ", repository: " +:+ repository)
                response Hstatus) as [Hflows1 Hflows2].
  pose proof (listing_ends_with_error_body handle run_ids
                (runs_error owner repository) github_token (runs_url owner repository)
                (λ workflow_run_ids, "Found " +:+ pretty (length workflow_run_ids)
                                       +:+ " workflow runs for user: " +:+ owner
                                       +:+ ", repository: " +:+ repository)
                response Hstatus) as [Hruns1 Hruns2].
  destruct Hbody as [[Hjson ->]|(body & Hjson & Hshape & ->)].
  - split; [|split]; [exact (Hrepos1 Hjson)|exact (Hflows1 Hjson)|exact (Hruns1 Hjson)].
  - split; [|split];
      [exact (Hrepos2 body Hjson Hshape)|exact (Hflows2 body Hjson Hshape)
      |exact (Hruns2 body Hjson Hshape)].
Qed.

(** A 502 whose body is a web page. *)
Lemma listing_error_body_unreadable_witness :
  get_repositories Scenario.garbled 10 "gateway" "t" Example.start
  = (Raises JSONDecodeError,
     {| server := (); trace := [Sent (get_request (repositories_url "gateway") "t")] |}).
Proof.
  destruct (listing_error_body_unreadable Scenario.garbled "gateway" "one" "t"
              (Example.plain 502 "Bad Gateway" "<html>Bad Gateway</html>") JSONDecodeError)
    as (Hrepos & _); [simpl; lia|left; split; reflexivity|].
  apply (Hrepos 10%nat Example.start [] () (repositories_url "gateway") ()).
  - apply reads_done.
  - constructor.
  - simpl. lia.
  - reflexivity.
  - reflexivity.
Defined.

Lemma fst_bind_out_of_fuel {St A B} (m : M St A) (k : A → M St B) (w : World St) :
  (m w).1 = OutOfFuel → ((m ≫= k) w).1 = OutOfFuel.
Proof. unfold mbind, M_bind. by destruct (m w) as [[a|exc| |] w']. Qed.

(** X7.  The loop of a listing has no bound of its own.  Against a server
    whose every page carries items and names a further page, a listing never
    comes to an end: whatever the fuel, it runs out. *)
Theorem listing_of_endless_pages_runs_out {St} (handle : St → Request → Reply * St)
  (owner repository github_token : string) :
  let endless {A} (extract : JSON → Outcome (list A)) :=
    ∀ s url, ∃ response s',
      handle s (get_request url github_token) = (Responded response, s')
      ∧ (∃ found, page_items extract response = Returns found)
      ∧ Py.truthy_opt (next_link response) = true in
  (endless repository_names →
   ∀ fuel w, (get_repositories handle fuel owner github_token w).1 = OutOfFuel)
  ∧ (endless workflow_filenames →
     ∀ fuel w, (get_workflows handle fuel owner repository github_token w).1 = OutOfFuel)
  ∧ (endless run_ids →
     ∀ fuel w, (get_workflow_runs handle fuel owner repository github_token w).1 = OutOfFuel).
Proof.
  cbv zeta. split; [|split]; intros Hserver fuel w; apply fst_bind_out_of_fuel.
  - by apply (while_url_endless handle repository_names (repositories_error owner)).
  - by apply (while_url_endless handle workflow_filenames (workflows_error owner repository)).
  - by apply (while_url_endless handle run_ids (runs_error owner repository)).
Qed.

Lemma listing_of_endless_pages_runs_out_witness :
  (get_repositories Scenario.endless 1000 "erin" "t" {| server := 0%nat; trace := [] |}).1
  = OutOfFuel.
Proof.
  destruct (listing_of_endless_pages_runs_out Scenario.endless "erin" "one" "t")
    as (Hrepos & _).
  apply Hrepos. intros s url. eexists _, _. split; [reflexivity|].
  split; [eexists; reflexivity|reflexivity].
Defined.

(** ** More on the sweeps *)

(** X8.  A repository that cannot be listed ends the sweep.  When
    [get_workflows] raises at a repository the enabling sweep has reached,
    or [get_workflow_runs] at one the pruning sweep has reached, the sweep
    raises the same exception in the world the listing left: the
    repositories after it are not visited. *)
Theorem sweep_stops_at_unlistable_repository {St} (handle : St → Request → Reply * St)
  (fuel : nat) (owner github_token : string) (keep : Z)
  (w w1 w2 w3 : World St) (repositories : list JSON) (before after : list string)
  (repository : string) (exc : Exception) :
  py_str <$> repositories = before ++ repository :: after →
  (get_repositories handle fuel owner github_token
     (record (Printed (activating_line owner)) w)
   = (Returns repositories, w1) →
   for_each before (activate_repository handle fuel owner github_token) w1
   = (Returns (), w2) →
   get_workflows handle fuel owner repository github_token w2 = (Raises exc, w3) →
   enable_all_workflows handle fuel owner github_token w = (Raises exc, w3))
  ∧ (get_repositories handle fuel owner github_token
       (record (Printed (removing_line owner keep)) w)
     = (Returns repositories, w1) →
     for_each before (prune_repository handle fuel owner github_token keep) w1
     = (Returns (), w2) →
     get_workflow_runs handle fuel owner repository github_token w2 = (Raises exc, w3) →
     delete_old_workflow_runs handle fuel owner github_token keep w = (Raises exc, w3)).
Proof.
  intros Hnames. split; intros Hrepos Hbefore Hlisting.
  - unfold enable_all_workflows.
    erewrite bind_returns; [|apply print_run].
    erewrite bind_returns; [|exact Hrepos].
    rewrite Hnames. eapply for_each_raises; [exact Hbefore|].
    unfold activate_repository. by apply bind_raises.
  - unfold delete_old_workflow_runs.
    erewrite bind_returns; [|apply print_run].
    erewrite bind_returns; [|exact Hrepos].
    rewrite Hnames. eapply for_each_raises; [exact Hbefore|].
    unfold prune_repository. by apply bind_raises.
Qed.

(** The second of erin's three repositories answers 403 to both listings. *)
Lemma sweep_stops_at_unlistable_repository_witness :
  (enable_all_workflows Scenario.half 10 "erin" "t" Example.start).1
  = Raises (RuntimeError
              "ERROR reading workflows for user: erin, repository: two, Resource not accessible")
  ∧ (delete_old_workflow_runs Scenario.half 10 "erin" "t" 2 Example.start).1
    = Raises (RuntimeError
                "ERROR reading workflow runs for user: erin, repository: two, Resource not accessible").
Proof.
  split.
  - pose (w1 := (get_repositories Scenario.half 10 "erin" "t"
                   (record (Printed (activating_line "erin")) Example.start)).2).
    pose (w2 := (for_each ["one"] (activate_repository Scenario.half 10 "erin" "t") w1).2).
    pose (w3 := (get_workflows Scenario.half 10 "erin" "two" "t" w2).2).
    destruct (sweep_stops_at_unlistable_repository Scenario.half 10 "erin" "t" 2
                Example.start w1 w2 w3 [JStr "one"; JStr "two"; JStr "three"]
                ["one"] ["three"] "two"
                (RuntimeError
                   "ERROR reading workflows for user: erin, repository: two, Resource not accessible")
                eq_refl)
      as [Henable _].
    rewrite Henable; [reflexivity|vm_compute; reflexivity..].
  - pose (w1 := (get_repositories Scenario.half 10 "erin" "t"
                   (record (Printed (removing_line "erin" 2)) Example.start)).2).
    pose (w2 := (for_each ["one"] (prune_repository Scenario.half 10 "erin" "t" 2) w1).2).
    pose (w3 := (get_workflow_runs Scenario.half 10 "erin" "two" "t" w2).2).
    destruct (sweep_stops_at_unlistable_repository Scenario.half 10 "erin" "t" 2
                Example.start w1 w2 w3 [JStr "one"; JStr "two"; JStr "three"]
                ["one"] ["three"] "two"
                (RuntimeError
                   "ERROR reading workflow runs for user: erin, repository: two, Resource not accessible")
                eq_refl)
      as [_ Hprune].
    rewrite Hprune; [reflexivity|vm_compute; reflexivity..].
Defined.

(** X9.  Nothing to prune.  When a repository has no more runs than are kept,
    [keep] not being negative, its turn in the pruning sweep ends after the
    listing: the count is logged and no DELETE is sent. *)
Theorem nothing_to_prune {St} (handle : St → Request → Reply * St)
  (fuel : nat) (owner github_token repository : string) (keep : Z)
  (w w1 : World St) (ids : list Z) :
  0 ≤ keep →
  Z.of_nat (length ids) ≤ keep →
  get_workflow_runs handle fuel owner repository github_token w
  = (Returns (JInt <$> ids), w1) →
  prune_repository handle fuel owner github_token keep repository w
  = (Returns (), record (Logged INFO (to_delete_line repository (length ids) 0)) w1).
Proof.
  intros Hkeep Hfew Hruns.
  rewrite (prune_repository_integers handle fuel owner github_token keep repository w w1 ids
             Hruns).
  assert (Hnone : workflow_run_ids_to_delete keep ids = []).
  { unfold workflow_run_ids_to_delete. rewrite slice_from_nonneg by done.
    apply drop_ge. rewrite length_sorted_reverse. lia. }
  rewrite Hnone. reflexivity.
Qed.

Lemma nothing_to_prune_witness :
  prune_repository Scenario.half 10 "erin" "t" 2 "one" Example.start
  = (Returns (),
     {| server := ();
        trace := [Sent (get_request (runs_url "erin" "one") "t");
                  Logged INFO "Found 2 workflow runs for user: erin, repository: one";
                  Logged INFO "repository: one, 2 workflow runs found, 0 to delete."] |}).
Proof.
  rewrite (nothing_to_prune Scenario.half 10 "erin" "t" "one" 2 Example.start
             (get_workflow_runs Scenario.half 10 "erin" "one" "t" Example.start).2 [5; 4]);
    [vm_compute; reflexivity|lia|simpl; lia|vm_compute; reflexivity].
Defined.

(** X10.  The two outcomes [delete_workflow_run] tells apart.  A 204 makes it
    return, with one line at INFO that names the run, the owner and the
    repository.  A failure of the transport makes it raise [RuntimeError],
    logged at ERROR, whose text names the run, the owner and the repository
    and ends with the text of the exception of [requests].  Either way one
    request is sent. *)
Theorem delete_workflow_run_outcomes {St} (handle : St → Request → Reply * St)
  (owner repository github_token run_id : string) (w : World St) (s' : St) :
  let request := delete_request owner repository github_token run_id in
  (∀ response,
     handle (server w) request = (Responded response, s') → status_code response = 204 →
     delete_workflow_run handle owner repository github_token run_id w
     = (Returns (),
        {| server := s';
           trace := trace w ++ [Sent request;
                                Logged INFO (deleted owner repository run_id)] |}))
  ∧ (∀ f,
       handle (server w) request = (Failed f, s') →
       let result := delete_error owner repository run_id
                       (exception_str (transport_exception f)) in
       delete_workflow_run handle owner repository github_token run_id w
       = (Raises (RuntimeError result),
          {| server := s'; trace := trace w ++ [Sent request; Logged ERROR result] |})).
Proof.
  intros request. split.
  - intros response Hh H204. rewrite delete_workflow_run_run. cbv zeta.
    fold request. rewrite Hh. case_decide; [|done].
    unfold record. simpl. by rewrite <-app_assoc.
  - intros f Hh result. rewrite delete_workflow_run_run. cbv zeta.
    fold request. rewrite Hh. unfold record. simpl. by rewrite <-app_assoc.
Qed.

Lemma delete_workflow_run_outcomes_witness :
  delete_workflow_run Example.github "alice" "lib_x" "t" "1" Example.start
  = (Returns (),
     {| server := ();
        trace := [Sent (delete_request "alice" "lib_x" "t" "1");
                  Logged INFO
                    "Deleted workflow run ID: 1 for user: alice, repository: lib_x"] |})
  ∧ delete_workflow_run Example.github "alice" "lib_x" "t" "2" Example.start
    = (Raises (RuntimeError
                 "ERROR deleting workflow run ID: 2 for user: alice, repository: lib_x: Connection aborted."),
       {| server := ();
          trace := [Sent (delete_request "alice" "lib_x" "t" "2");
                    Logged ERROR
                      "ERROR deleting workflow run ID: 2 for user: alice, repository: lib_x: Connection aborted."] |}).
Proof.
  split.
  - destruct (delete_workflow_run_outcomes Example.github "alice" "lib_x" "t" "1"
                Example.start ()) as [Hdeleted _].
    apply (Hdeleted Example.no_content); reflexivity.
  - destruct (delete_workflow_run_outcomes Example.github "alice" "lib_x" "t" "2"
                Example.start ()) as [_ Hfailed].
    apply (Hfailed (ConnectionFailed "Connection aborted.")); reflexivity.
Defined.

(** X11.  A failed transport in [enable_workflow].  For a filename that is not
    skipped, when the PUT fails in transport the exception of [requests]
    leaves [enable_workflow] as it is: the handler, which catches
    [HTTPError] only, does not run, nothing is logged, and no
    [RuntimeError] is raised. *)
Theorem enable_workflow_transport_failure {St} (handle : St → Request → Reply * St)
  (owner repository workflow_filename github_token : string) (w : World St)
  (f : TransportFailure) (s' : St) :
  Py.startswith workflow_filename "pages-build-deployment" = false →
  Py.startswith workflow_filename "dependabot" = false →
  handle (server w) (enable_request owner repository workflow_filename github_token)
  = (Failed f, s') →
  enable_workflow handle owner repository workflow_filename github_token w
  = (Raises (transport_exception f),
     {| server := s';
        trace := trace w ++ [Sent (enable_request owner repository workflow_filename
                                     github_token)] |})
  ∧ ∀ message, transport_exception f ≠ RuntimeError message.
Proof.
  intros Hpages Hbot Hh. split.
  - rewrite (enable_workflow_run handle _ _ _ _ w Hpages Hbot). cbv zeta. by rewrite Hh.
  - intros message. by destruct f.
Qed.

Lemma enable_workflow_transport_failure_witness :
  enable_workflow Scenario.cut "erin" "one" "ci.yml" "t" Example.start
  = (Raises (Timeout "Read timed out. (read timeout=30)"),
     {| server := (); trace := [Sent (enable_request "erin" "one" "ci.yml" "t")] |}).
Proof.
  apply (enable_workflow_transport_failure Scenario.cut "erin" "one" "ci.yml" "t"
           Example.start (TimedOut "Read timed out. (read timeout=30)") ());
    reflexivity.
Defined.

(** ** The deletion set *)

Section DeletionSet.

#[local] Instance ge_total : Total Z.ge.
Proof. intros x y. lia. Qed.

#[local] Instance ge_trans : Transitive Z.ge.
Proof. intros x y z. lia. Qed.

#[local] Instance ge_antisymm : AntiSymm (=) Z.ge.
Proof. intros x y. lia. Qed.

Lemma sorted_reverse_proper (ids ids' : list Z) :
  ids ≡ₚ ids' → Py.sorted_reverse ids = Py.sorted_reverse ids'.
Proof.
  intros Hperm. unfold Py.sorted_reverse. apply (Sorted_unique Z.ge).
  - apply Sorted_merge_sort; apply _.
  - apply Sorted_merge_sort; apply _.
  - by rewrite !merge_sort_Permutation.
Qed.

End DeletionSet.

(** X12.  The deletion set does not depend on the order in which the runs
    were listed: two listings of the same runs give the same runs to delete,
    in the same order, for any retention count. *)
Theorem deletion_set_ignores_listing_order (keep : Z) (ids ids' : list Z) :
  ids ≡ₚ ids' → workflow_run_ids_to_delete keep ids = workflow_run_ids_to_delete keep ids'.
Proof.
  intros Hperm. unfold workflow_run_ids_to_delete.
  by rewrite (sorted_reverse_proper ids ids' Hperm).
Qed.

Lemma deletion_set_ignores_listing_order_witness :
  workflow_run_ids_to_delete 1 [3; 1; 2] = workflow_run_ids_to_delete 1 [1; 2; 3].
Proof.
  apply deletion_set_ignores_listing_order.
  apply (Permutation_trans (l' := [1; 3; 2])); [apply perm_swap|].
  apply perm_skip, perm_swap.
Defined.

(** X13.  Pruning twice deletes nothing new.  Once the runs of a deletion set
    are gone, the runs that remain give an empty deletion set for the same
    retention count, when it is not negative. *)
Theorem pruning_again_deletes_nothing (keep : Z) (ids remaining : list Z) :
  0 ≤ keep →
  remaining ++ workflow_run_ids_to_delete keep ids ≡ₚ ids →
  workflow_run_ids_to_delete keep remaining = [].
Proof.
  intros Hkeep Hperm.
  assert (Hlen : (length (workflow_run_ids_to_delete keep ids)
                  = length ids - Z.to_nat keep)%nat).
  { unfold workflow_run_ids_to_delete. rewrite slice_from_nonneg by done.
    by rewrite length_drop, length_sorted_reverse. }
  apply Permutation_length in Hperm. rewrite length_app, Hlen in Hperm.
  unfold workflow_run_ids_to_delete. rewrite slice_from_nonneg by done.
  apply drop_ge. rewrite length_sorted_reverse. lia.
Qed.

Lemma pruning_again_deletes_nothing_witness :
  workflow_run_ids_to_delete 1 [3; 1; 2] = [2; 1]
  ∧ workflow_run_ids_to_delete 1 [3] = [].
Proof.
  split; [reflexivity|].
  apply (pruning_again_deletes_nothing 1 [3; 1; 2] [3]); [lia|].
  change (workflow_run_ids_to_delete 1 [3; 1; 2]) with [2; 1]. simpl.
  apply perm_skip, perm_swap.
Defined.

(** ** The older [enable_workflow] *)

(** X14.  The older [enable_workflow] skips a name that starts with
    [pages-build-deployment] and no other.  For every other name, one that
    starts with [dependabot] included, it sends one PUT, without a timeout.
    A 4xx or 5xx answer makes it log and raise [RuntimeError] with the
    [message] of a JSON object, or [Error] when the object has none; when the
    body of such an answer is no JSON, [JSONDecodeError] escapes instead. *)
Theorem legacy_enable_workflow_outcomes {St} (handle : St → Request → Reply * St)
  (owner repository workflow_filename github_token : string) (w : World St) :
  let request := {| method := PUT; url := enable_url owner repository workflow_filename;
                    headers := enable_headers github_token; timeout := None |} in
  (Py.startswith workflow_filename "pages-build-deployment" = true →
   Legacy.enable_workflow handle owner repository workflow_filename github_token w
   = (Returns (skipped_pages repository workflow_filename), w))
  ∧ (Py.startswith workflow_filename "pages-build-deployment" = false →
     ∃ outcome w',
       Legacy.enable_workflow handle owner repository workflow_filename github_token w
       = (outcome, w')
       ∧ requests_of (trace w') = requests_of (trace w) ++ [request]
       ∧ ∀ response s',
           handle (server w) request = (Responded response, s') →
           (¬ (400 ≤ status_code response < 600) →
            outcome = Returns (enabled repository workflow_filename))
           ∧ (400 ≤ status_code response < 600 →
              match json response with
              | Some (JObj fields) =>
                  outcome = Raises (RuntimeError
                                      (enable_error repository workflow_filename
                                         (py_str (default (JStr "Error")
                                                    (assoc "message" fields)))))
              | Some _ => outcome = Raises AttributeError
              | None => outcome = Raises JSONDecodeError
              end)).
Proof.
  intros request. split.
  - intros Hpages. unfold Legacy.enable_workflow. by rewrite Hpages.
  - intros Hpages. unfold Legacy.enable_workflow. rewrite Hpages.
    unfold requests_put. fold request.
    destruct (handle (server w) request) as [[response|f] s'] eqn:Hh.
    + erewrite bind_returns; [|eapply send_responded, Hh].
      destruct (is_error_status (status_code response)) eqn:Hs.
      * destruct (raise_for_status_error _ Hs) as [message Hr].
        erewrite try_caught; cycle 1.
        { apply bind_raises. unfold lift. by rewrite Hr. }
        { reflexivity. }
        unfold mbind, M_bind, lift, response_json.
        apply is_error_status_spec in Hs.
        destruct (json response) as [[]|] eqn:Hjson; eexists _, _;
          (split; [reflexivity|]);
          (split; [simpl; by rewrite ?requests_of_logged, requests_of_sent|]);
          intros ? ? [= <- <-]; (split; [done|]); intros _; by rewrite Hjson.
      * erewrite try_returns;
          [|erewrite bind_returns;
            [reflexivity|unfold lift; by rewrite (raise_for_status_ok _ Hs)]].
        eexists _, _. split; [reflexivity|].
        split; [simpl; by rewrite requests_of_logged, requests_of_sent|].
        intros ? ? [= <- <-]. split; [done|].
        intros Hstatus. apply is_error_status_spec in Hstatus. congruence.
    + erewrite bind_raises; [|eapply send_failed, Hh].
      eexists _, _. split; [reflexivity|].
      split; [simpl; by rewrite requests_of_sent|]. by intros ? ? [=].
Qed.

Lemma legacy_enable_workflow_outcomes_witness :
  Legacy.enable_workflow Example.github "alice" "lib_x" "pages-build-deployment-x.yml" "t"
    Example.start
  = (Returns (skipped_pages "lib_x" "pages-build-deployment-x.yml"), Example.start)
  ∧ ∃ outcome w',
      Legacy.enable_workflow Example.github "alice" "lib_x" "dependabot-updates.yml" "t"
        Example.start = (outcome, w')
      ∧ requests_of (trace w')
        = [{| method := PUT; url := enable_url "alice" "lib_x" "dependabot-updates.yml";
              headers := enable_headers "t"; timeout := None |}]
      ∧ outcome
        = Raises (RuntimeError
                    "ERROR enabling repository lib_x, workflow dependabot-updates.yml: Not Found").
Proof.
  split.
  - apply (legacy_enable_workflow_outcomes Example.github). reflexivity.
  - destruct (legacy_enable_workflow_outcomes Example.github "alice" "lib_x"
                "dependabot-updates.yml" "t" Example.start) as [_ Hsent].
    destruct (Hsent eq_refl) as (outcome & w' & Hrun & Hrequests & Hanswer).
    exists outcome, w'. split; [exact Hrun|]. split; [exact Hrequests|].
    destruct (Hanswer Example.not_found () eq_refl) as [_ Herror].
    apply Herror. simpl. lia.
Defined.
